(** * Cysic hardware miner (oracle/cysic-hardware-miner.py)

    A shallow embedding of [CysicHardwareMiner]: the rig registry, the block
    monitor, the proof fan-out, the public-input digest, the nuChain
    submission and the statistics snapshot, followed by the properties of
    the orchestration core that hold (or fail) on that code.

    Conventions.  A Python [int] is a [Z]; a [str] is a [string] whose
    characters are code points below 256; [bytes] is a [list byte]; a
    [float] is an IEEE 754 binary64 value of [SpecFloat.spec_float]; a
    [dict] is an association list in insertion order with unique keys.
    Effects (clock, HTTP, printing, sleeping) go through the monad [M]
    over a [World]; the outside world is an [Env] of answers indexed by
    the number of interactions made so far.  The block monitor, which
    retries by calling itself, runs under the recursion limits of a
    [Stack]. *)

From Stdlib Require Import ZArith List String Ascii Bool Lia.
From Stdlib Require Import Strings.Byte DecimalString.
From Stdlib Require Import Floats.SpecFloat.
From Stdlib Require Import Sorting.Sorted.
Import ListNotations.

Open Scope string_scope.
Open Scope list_scope.
Open Scope Z_scope.

(** String concatenation; [++] is kept for lists. *)
Infix "+++" := String.append (right associativity, at level 60).

(* ===================================================================== *)
(** ** Python values                                                      *)
(* ===================================================================== *)

Module Py.

(** [str(n)] for an [int]. *)
Definition str_int (n : Z) : string := NilZero.string_of_int (Z.to_int n).

(** Truthiness of an optional string: [None] and [''] are falsy. *)
Definition truthy (s : option string) : bool :=
  match s with
  | None | Some EmptyString => false
  | Some _ => true
  end.

(** Exceptions the modelled code can meet; every handler in the source
    is [except Exception], so the kind only shows in the printed text. *)
Inductive Exn : Type :=
| KeyError (key : string)
| ValueError
| OverflowError
| ZeroDivisionError
| RequestException
| JSONDecodeError
| ConnectionClosed
| RecursionError.

(** *** Floats: binary64 *)

Definition prec : Z := 53.
Definition emax : Z := 1024.
Definition float := spec_float.

Definition float_of_int (n : Z) : float := binary_normalize prec emax n 0 false.
Definition fsub : float -> float -> float := SFsub prec emax.
Definition fmul : float -> float -> float := SFmul prec emax.
Definition fdiv : float -> float -> float := SFdiv prec emax.
Definition flt : float -> float -> bool := SFltb.

Definition is_zero (x : float) : bool :=
  match x with S754_zero _ => true | _ => false end.

Definition is_finite (x : float) : bool :=
  match x with S754_zero _ | S754_finite _ _ _ => true | _ => false end.

(** [int(x)]: truncation toward zero; [nan] and the infinities raise. *)
Definition int_of_float (x : float) : Exn + Z :=
  match x with
  | S754_zero _ => inr 0
  | S754_finite s m e =>
      let a := if 0 <=? e then Z.pos m * 2 ^ e else Z.pos m / 2 ^ (- e) in
      inr (if s then - a else a)
  | S754_infinity _ => inl OverflowError
  | S754_nan => inl ValueError
  end.

(** [n / x] for an [int] [n] and a [float] [x]: [n] is converted first
    (too large an [int] raises), a zero divisor raises. *)
Definition int_truediv_float (n : Z) (x : float) : Exn + float :=
  let a := float_of_int n in
  if negb (is_finite a) then inl OverflowError
  else if is_zero x then inl ZeroDivisionError
  else inr (fdiv a x).

(** *** Dictionaries with string keys, in insertion order *)

Section Dict.
Context {V : Type}.

Definition dict := list (string * V).

Fixpoint get (k : string) (d : dict) : option V :=
  match d with
  | [] => None
  | (k', v) :: d' => if String.eqb k k' then Some v else get k d'
  end.

(** [d[k] = v]: an existing key keeps its position, a new one goes last. *)
Fixpoint set (k : string) (v : V) (d : dict) : dict :=
  match d with
  | [] => [(k, v)]
  | (k', v') :: d' =>
      if String.eqb k k' then (k', v) :: d' else (k', v') :: set k v d'
  end.

Definition keys (d : dict) : list string := map fst d.
Definition values (d : dict) : list V := map snd d.

(** [bool(d)]. *)
Definition nonempty (d : dict) : bool :=
  match d with [] => false | _ => true end.
End Dict.

Arguments dict : clear implicits.

End Py.

(* ===================================================================== *)
(** ** Data model                                                         *)
(* ===================================================================== *)

(** [@dataclass MiningRig]. *)
Record MiningRig : Type := mkRig {
  rig_id : Z;
  owner : string;
  components : list Z;
  hash_power : Z;
  watt_consumption : Z;
  nuchain_address : string;
  is_active : bool
}.

(** [@dataclass CysicProof]. *)
Record CysicProof : Type := mkProof {
  proof_bytes : list byte;
  public_inputs : list byte;
  verification_key : list byte;
  proof_hardware_id : string;
  generation_time_ms : Z
}.

(** One entry of [config['oracle_contracts']]. *)
Record OracleContract : Type := mkOracle {
  oc_address : option string;
  oc_rpc : option string
}.

(** The keys of the [config] dictionary that the modelled methods read;
    [None] is an absent key. *)
Record Config : Type := mkConfig {
  cfg_hardware_id : option string;
  cfg_cysic_endpoint : option string;
  cfg_cysic_api_key : option string;
  cfg_nuchain_rpc : option string;
  cfg_relayer_address : option string;
  cfg_oracle_contracts : option (Py.dict OracleContract);
  cfg_asic_resistant : option bool
}.

(** The attributes of a [CysicHardwareMiner] instance. *)
Record Miner : Type := mkMiner {
  config : Config;
  mining_rigs : Py.dict MiningRig;
  hardware_id : string;
  cysic_endpoint : string;
  nuchain_rpc : string;
  oracle_contracts : Py.dict OracleContract;
  asic_resistant : bool;
  proofs_generated : Z;
  total_rewards : Z;
  start_time : Py.float
}.

Definition get_or {A : Type} (o : option A) (default : A) : A :=
  match o with Some a => a | None => default end.

(** [CysicHardwareMiner.__init__]; [now] is the reading of [time.time()]. *)
Definition init (cfg : Config) (now : Py.float) : Miner :=
  {| config := cfg;
     mining_rigs := [];
     hardware_id := get_or (cfg_hardware_id cfg) "nvidia-a100";
     cysic_endpoint := get_or (cfg_cysic_endpoint cfg) "https://api.cysic.xyz/v1";
     nuchain_rpc := get_or (cfg_nuchain_rpc cfg) "http://localhost:26657";
     oracle_contracts := get_or (cfg_oracle_contracts cfg) [];
     asic_resistant := get_or (cfg_asic_resistant cfg) true;
     proofs_generated := 0;
     total_rewards := 0;
     start_time := now |}.

Definition with_mining_rigs (rigs : Py.dict MiningRig) (self : Miner) : Miner :=
  {| config := config self;
     mining_rigs := rigs;
     hardware_id := hardware_id self;
     cysic_endpoint := cysic_endpoint self;
     nuchain_rpc := nuchain_rpc self;
     oracle_contracts := oracle_contracts self;
     asic_resistant := asic_resistant self;
     proofs_generated := proofs_generated self;
     total_rewards := total_rewards self;
     start_time := start_time self |}.

Definition with_proofs_generated (n : Z) (self : Miner) : Miner :=
  {| config := config self;
     mining_rigs := mining_rigs self;
     hardware_id := hardware_id self;
     cysic_endpoint := cysic_endpoint self;
     nuchain_rpc := nuchain_rpc self;
     oracle_contracts := oracle_contracts self;
     asic_resistant := asic_resistant self;
     proofs_generated := n;
     total_rewards := total_rewards self;
     start_time := start_time self |}.

Definition with_total_rewards (n : Z) (self : Miner) : Miner :=
  {| config := config self;
     mining_rigs := mining_rigs self;
     hardware_id := hardware_id self;
     cysic_endpoint := cysic_endpoint self;
     nuchain_rpc := nuchain_rpc self;
     oracle_contracts := oracle_contracts self;
     asic_resistant := asic_resistant self;
     proofs_generated := proofs_generated self;
     total_rewards := n;
     start_time := start_time self |}.

(* ===================================================================== *)
(** ** Rig registry: [load_rigs_from_chain], [load_mining_rigs]           *)
(* ===================================================================== *)

Module Registry.

(** The two rigs that [load_rigs_from_chain] builds for every chain. *)
Definition mock_rig_1 : MiningRig :=
  {| rig_id := 1;
     owner := "0x742d35Cc6634C0532925a3b8D0C9e3e0C8b4c8e8";
     components := [1; 3; 4];
     hash_power := 2000000;
     watt_consumption := 445;
     nuchain_address := "nu1miner000000000000000000000000000000000";
     is_active := true |}.

Definition mock_rig_2 : MiningRig :=
  {| rig_id := 2;
     owner := "0x123d35Cc6634C0532925a3b8D0C9e3e0C8b4c8e8";
     components := [1; 3; 5; 5];
     hash_power := 4500000;
     watt_consumption := 1025;
     nuchain_address := "nu1miner111111111111111111111111111111111";
     is_active := true |}.

Definition mock_rigs : list MiningRig := [mock_rig_1; mock_rig_2].

(** [f"{chain}:{rig.owner}:{rig.rig_id}"]. *)
Definition rig_key (chain : string) (rig : MiningRig) : string :=
  chain +++ ":" +++ owner rig +++ ":" +++ Py.str_int (rig_id rig).

(** [self.oracle_contracts.get(chain, {}).get('address')]. *)
Definition oracle_address (self : Miner) (chain : string) : option string :=
  match Py.get chain (oracle_contracts self) with
  | Some oc => oc_address oc
  | None => None
  end.

(** One turn of the loop [for rig in mock_rigs]: the registry entry is
    assigned in the published dictionary and the rig is appended to the
    local result list. *)
Definition load_step (chain : string)
    (st : Py.dict MiningRig * list MiningRig) (rig : MiningRig)
  : Py.dict MiningRig * list MiningRig :=
  (Py.set (rig_key chain rig) rig (fst st), snd st ++ [rig]).

(** The successive contents of [self.mining_rigs] while the loop runs
    over [todo], the starting content first. *)
Fixpoint loop_states (chain : string) (st : Py.dict MiningRig * list MiningRig)
    (todo : list MiningRig) : list (Py.dict MiningRig) :=
  match todo with
  | [] => [fst st]
  | rig :: todo' => fst st :: loop_states chain (load_step chain st rig) todo'
  end.

(** [load_rigs_from_chain]: the updated miner and the returned list. *)
Definition load_rigs_from_chain (self : Miner) (chain : string)
  : Miner * list MiningRig :=
  if negb (Py.truthy (oracle_address self chain)) then (self, [])
  else
    let st := fold_left (load_step chain) mock_rigs (mining_rigs self, []) in
    (with_mining_rigs (fst st) self, snd st).

(** Every content the published dictionary goes through during one
    [load_rigs_from_chain]. *)
Definition refresh_states (self : Miner) (chain : string)
  : list (Py.dict MiningRig) :=
  if negb (Py.truthy (oracle_address self chain)) then [mining_rigs self]
  else loop_states chain (mining_rigs self, []) mock_rigs.

(** [load_mining_rigs]: both chains, Altcoinchain first. *)
Definition load_mining_rigs (self : Miner) : Miner :=
  let (self1, alt_rigs) := load_rigs_from_chain self "altcoinchain" in
  let (self2, pol_rigs) := load_rigs_from_chain self1 "polygon" in
  self2.

(** [[rig for rig in self.mining_rigs.values() if rig.is_active]]. *)
Definition active_rigs (self : Miner) : list MiningRig :=
  filter is_active (Py.values (mining_rigs self)).

End Registry.

(** *** Who can see the registry during a refresh

    The event loop runs one coroutine at a time and hands over to another
    one only where the running coroutine suspends at an [await].  A
    coroutine is given by its segments, the code between two consecutive
    suspension points; a segment runs without interruption. *)
Definition Segment : Type := Miner -> Miner.

(** [load_rigs_from_chain] as the event loop runs it.  Lines 142-184
    contain no [await]: the whole body, the loop of lines 176-179
    included, is one segment. *)
Definition refresh_segments (chain : string) : list Segment :=
  [fun me => fst (Registry.load_rigs_from_chain me chain)].

(** What the event loop does next: it resumes the refresh for its next
    segment, or it runs a reader, which takes a snapshot of
    [self.mining_rigs] (line 219 of the dispatcher, lines 336-346 of the
    statistics). *)
Inductive Turn : Type :=
| Resume
| Read.

(** The snapshots the readers take under a schedule of the event loop,
    while the coroutine with segments [pending] runs on the miner. *)
Fixpoint snapshots (schedule : list Turn) (pending : list Segment) (me : Miner)
  : list (Py.dict MiningRig) :=
  match schedule with
  | [] => []
  | Read :: schedule' => mining_rigs me :: snapshots schedule' pending me
  | Resume :: schedule' =>
      match pending with
      | [] => snapshots schedule' [] me
      | segment :: pending' => snapshots schedule' pending' (segment me)
      end
  end.

(* ===================================================================== *)
(** ** Bytes, hexadecimal text and JSON text                              *)
(* ===================================================================== *)

Module Bytes.

Definition of_Z (n : Z) : byte :=
  match Byte.of_N (Z.to_N (n mod 256)) with Some b => b | None => x00 end.

Definition to_Z (b : byte) : Z := Z.of_N (Byte.to_N b).

Definition hex_digit (n : Z) : ascii :=
  ascii_of_N (Z.to_N (if n <? 10 then 48 + n else 87 + n)).

(** [bytes.hex()]: two lowercase digits per byte. *)
Fixpoint hex (bs : list byte) : string :=
  match bs with
  | [] => EmptyString
  | b :: bs' =>
      String (hex_digit (to_Z b / 16)) (String (hex_digit (to_Z b mod 16)) (hex bs'))
  end.

Definition hex_value (c : ascii) : option Z :=
  let n := Z.of_N (N_of_ascii c) in
  if (48 <=? n) && (n <=? 57) then Some (n - 48)
  else if (97 <=? n) && (n <=? 102) then Some (n - 87)
  else if (65 <=? n) && (n <=? 70) then Some (n - 55)
  else None.

Definition is_space (c : ascii) : bool :=
  let n := Z.of_N (N_of_ascii c) in
  (n =? 32) || ((9 <=? n) && (n <=? 13)).

(** [bytes.fromhex(s)]: pairs of hexadecimal digits, ASCII white space
    allowed between the pairs; anything else raises [ValueError]. *)
Fixpoint fromhex (s : string) : option (list byte) :=
  match s with
  | EmptyString => Some []
  | String c s1 =>
      if is_space c then fromhex s1
      else
        match s1 with
        | EmptyString => None
        | String d s2 =>
            match hex_value c, hex_value d, fromhex s2 with
            | Some hi, Some lo, Some bs => Some (of_Z (16 * hi + lo) :: bs)
            | _, _, _ => None
            end
        end
  end.

(** [s.encode()] for a string of ASCII characters. *)
Fixpoint encode (s : string) : list byte :=
  match s with
  | EmptyString => []
  | String c s' => of_Z (Z.of_N (N_of_ascii c)) :: encode s'
  end.

End Bytes.

Module Json.

(** The JSON values the miner serialises. *)
#[warnings="-register-all"] Inductive value : Type :=
| JInt (n : Z)
| JStr (s : string)
| JList (l : list value)
| JDict (d : list (string * value)).

Definition hex4 (n : Z) : string :=
  String (Bytes.hex_digit (n / 4096 mod 16))
    (String (Bytes.hex_digit (n / 256 mod 16))
       (String (Bytes.hex_digit (n / 16 mod 16))
          (String (Bytes.hex_digit (n mod 16)) EmptyString))).

(** One character of a string under [ensure_ascii=True]. *)
Definition escape_char (c : ascii) : string :=
  let n := Z.of_N (N_of_ascii c) in
  if n =? 34 then "\" +++ String c EmptyString
  else if n =? 92 then "\\"
  else if n =? 10 then "\n"
  else if n =? 13 then "\r"
  else if n =? 9 then "\t"
  else if n =? 8 then "\b"
  else if n =? 12 then "\f"
  else if (32 <=? n) && (n <=? 126) then String c EmptyString
  else "\u" +++ hex4 n.

Fixpoint escape (s : string) : string :=
  match s with
  | EmptyString => EmptyString
  | String c s' => escape_char c +++ escape s'
  end.

Definition dq : string := String (ascii_of_N 34) EmptyString.

Definition quote (s : string) : string := dq +++ escape s +++ dq.

Fixpoint join (sep : string) (l : list string) : string :=
  match l with
  | [] => EmptyString
  | [x] => x
  | x :: l' => x +++ sep +++ join sep l'
  end.

(** Stable insertion sort of rendered items by key, the order of
    [sorted(dct.items())] when the keys are distinct. *)
Fixpoint insert_item (kv : string * string) (l : list (string * string))
  : list (string * string) :=
  match l with
  | [] => [kv]
  | kv' :: l' =>
      if String.leb (fst kv') (fst kv) then kv' :: insert_item kv l'
      else kv :: l
  end.

Definition sort_items (l : list (string * string)) : list (string * string) :=
  fold_left (fun acc kv => insert_item kv acc) l [].

(** [json.dumps(v, sort_keys=sort_keys)] with the default separators. *)
Fixpoint dumps (sort_keys : bool) (v : value) : string :=
  match v with
  | JInt n => Py.str_int n
  | JStr s => quote s
  | JList l => "[" +++ join ", " (map (dumps sort_keys) l) +++ "]"
  | JDict d =>
      let items :=
        map (fun kv => match kv with (k, x) => (k, dumps sort_keys x) end) d in
      let items := if sort_keys then sort_items items else items in
      "{" +++ join ", " (map (fun kv => quote (fst kv) +++ ": " +++ snd kv) items)
          +++ "}"
  end.

End Json.

(* ===================================================================== *)
(** ** [hashlib.sha256]                                                   *)
(* ===================================================================== *)

Module Sha256.

Definition wrap (x : Z) : Z := x mod 2 ^ 32.
Definition add32 (x y : Z) : Z := wrap (x + y).
Definition rotr (n x : Z) : Z :=
  Z.lor (Z.shiftr x n) (wrap (Z.shiftl x (32 - n))).
Definition xor3 (x y z : Z) : Z := Z.lxor (Z.lxor x y) z.

Definition Ch (x y z : Z) : Z :=
  Z.lxor (Z.land x y) (Z.land (Z.lxor x 0xffffffff) z).
Definition Maj (x y z : Z) : Z :=
  xor3 (Z.land x y) (Z.land x z) (Z.land y z).
Definition Sigma0 (x : Z) : Z := xor3 (rotr 2 x) (rotr 13 x) (rotr 22 x).
Definition Sigma1 (x : Z) : Z := xor3 (rotr 6 x) (rotr 11 x) (rotr 25 x).
Definition sigma0 (x : Z) : Z := xor3 (rotr 7 x) (rotr 18 x) (Z.shiftr x 3).
Definition sigma1 (x : Z) : Z := xor3 (rotr 17 x) (rotr 19 x) (Z.shiftr x 10).

(** The primes up to 311: the first sixty-four. *)
Definition is_prime (n : Z) : bool :=
  forallb (fun d => negb (n mod Z.of_nat d =? 0)) (seq 2 (Z.to_nat n - 2)).

Definition primes : list Z := filter is_prime (map Z.of_nat (seq 2 310)).

(** The largest [r] below [2 ^ bits] with [r ^ k <= x], bit by bit. *)
Fixpoint root_below (k x : Z) (bits : nat) (r : Z) : Z :=
  match bits with
  | O => r
  | S bits' =>
      let r' := r + 2 ^ Z.of_nat bits' in
      root_below k x bits' (if r' ^ k <=? x then r' else r)
  end.

(** The first 32 bits of the fractional part of the [k]-th root of [p]. *)
Definition root_fraction (k p : Z) : Z :=
  wrap (root_below k (p * 2 ^ (32 * k)) 36 0).

(** The round constants: cube roots of the first sixty-four primes. *)
Definition K : list Z := Eval vm_compute in map (root_fraction 3) primes.

(** The initial hash value: square roots of the first eight primes. *)
Definition H0 : list Z := Eval vm_compute in map (root_fraction 2) (firstn 8 primes).

(** The eight working variables and the sliding window of sixteen
    schedule words, oldest first. *)
Record round_state : Type := mkRound {
  va : Z; vb : Z; vc : Z; vd : Z; ve : Z; vf : Z; vg : Z; vh : Z;
  window : list Z
}.

Definition next_word (w : list Z) : Z :=
  add32 (add32 (sigma1 (nth 14 w 0)) (nth 9 w 0))
        (add32 (sigma0 (nth 1 w 0)) (nth 0 w 0)).

Definition round (s : round_state) (k : Z) : round_state :=
  let w := window s in
  let t1 := add32 (add32 (add32 (vh s) (Sigma1 (ve s)))
                         (add32 (Ch (ve s) (vf s) (vg s)) k))
                  (nth 0 w 0) in
  let t2 := add32 (Sigma0 (va s)) (Maj (va s) (vb s) (vc s)) in
  {| va := add32 t1 t2; vb := va s; vc := vb s; vd := vc s;
     ve := add32 (vd s) t1; vf := ve s; vg := vf s; vh := vg s;
     window := tl w ++ [next_word w] |}.

Definition compress (h : list Z) (block : list Z) : list Z :=
  let s0 := {| va := nth 0 h 0; vb := nth 1 h 0; vc := nth 2 h 0; vd := nth 3 h 0;
               ve := nth 4 h 0; vf := nth 5 h 0; vg := nth 6 h 0; vh := nth 7 h 0;
               window := block |} in
  let s := fold_left round K s0 in
  [ add32 (nth 0 h 0) (va s); add32 (nth 1 h 0) (vb s);
    add32 (nth 2 h 0) (vc s); add32 (nth 3 h 0) (vd s);
    add32 (nth 4 h 0) (ve s); add32 (nth 5 h 0) (vf s);
    add32 (nth 6 h 0) (vg s); add32 (nth 7 h 0) (vh s) ].

(** Big-endian bytes of the low [n] bytes of [x]. *)
Fixpoint be_bytes (n : nat) (x : Z) : list Z :=
  match n with
  | O => []
  | S n' => (x / 256 ^ Z.of_nat n') mod 256 :: be_bytes n' x
  end.

Definition pad (msg : list Z) : list Z :=
  let len := Z.of_nat (List.length msg) in
  msg ++ [128] ++ repeat 0 (Z.to_nat ((55 - len) mod 64)) ++ be_bytes 8 (8 * len).

(** Big-endian 32-bit words of a byte list whose length is a multiple
    of four. *)
Fixpoint words (fuel : nat) (bs : list Z) : list Z :=
  match fuel, bs with
  | S fuel', b0 :: b1 :: b2 :: b3 :: bs' =>
      (((b0 * 256 + b1) * 256 + b2) * 256 + b3) :: words fuel' bs'
  | _, _ => []
  end.

Fixpoint blocks (fuel : nat) (ws : list Z) : list (list Z) :=
  match fuel, ws with
  | _, [] => []
  | O, _ => []
  | S fuel', _ => firstn 16 ws :: blocks fuel' (skipn 16 ws)
  end.

(** [hashlib.sha256(msg).digest()]. *)
Definition digest (msg : list byte) : list byte :=
  let padded := pad (map Bytes.to_Z msg) in
  let ws := words (List.length padded) padded in
  let h := fold_left compress (blocks (List.length ws) ws) H0 in
  map Bytes.of_Z (flat_map (be_bytes 4) h).

End Sha256.

(* ===================================================================== *)
(** ** The outside world and the effect monad                             *)
(* ===================================================================== *)

(** The [params] of the JSON body posted to [<cysic_endpoint>/prove]. *)
Record ProofRequest : Type := mkRequest {
  req_rig_id : Z;
  req_hash_power : Z;
  req_watt_consumption : Z;
  req_block_height : Z;
  req_public_inputs : string;
  req_hardware_id : string;
  req_asic_resistant : bool
}.

(** The keys read from the prover's JSON answer; [None] is a missing key. *)
Record ProofData : Type := mkProofData {
  pd_proof : option string;
  pd_verification_key : option string
}.

(** A prover HTTP response; [prove_json = None] when [response.json()]
    raises. *)
Record ProveResponse : Type := mkProveResponse {
  prove_status : Z;
  prove_text : string;
  prove_json : option ProofData
}.

(** [result['result']] of a [broadcast_tx_commit] answer. *)
Record TxResult : Type := mkTxResult {
  tx_code : option Z;
  tx_hash : option string
}.

(** A nuChain HTTP response; [bc_json = None] when [response.json()]
    raises, [Some None] when the body has no ['result'] key. *)
Record BroadcastResponse : Type := mkBroadcastResponse {
  bc_status : Z;
  bc_json : option (option TxResult)
}.

(** The lines the miner prints, by [print] statement. *)
Inductive Msg : Type :=
| MsgMonitoring
| MsgNewBlock (block_height : Z)
| MsgMonitoringFailed (e : Py.Exn)
| MsgProofGenerated (rig : Z) (ms : Z)
| MsgProofFailed (text : string)
| MsgProofError (rig : Z) (e : Py.Exn)
| MsgSubmitted (hash : string)
| MsgSubmissionFailed (result : option TxResult)
| MsgSubmissionError (e : Py.Exn).

(** What the miner does to the outside world. [Connect] carries the number
    of invocations of [monitor_nuchain_blocks] that are active when the
    socket is opened. *)
Inductive Effect : Type :=
| Print (m : Msg)
| PostProve (url : string) (req : ProofRequest)
| PostBroadcast (url : string) (tx : string)
| Connect (url : string) (depth : nat)
| Send (subscription : string)
| Sleep (seconds : Z).

(** What the outside world answers.  The index is the number of clock
    readings and HTTP calls made before; [None] is a call that raises. *)
Record Env : Type := mkEnv {
  time : nat -> Py.float;
  post_prove : nat -> string -> ProofRequest -> option ProveResponse;
  post_broadcast : nat -> string -> string -> option BroadcastResponse
}.

Record World : Type := mkWorld {
  self : Miner;
  tick : nat;
  trace : list Effect
}.

(** State and exceptions: a computation returns a value or raises, and
    keeps what it did to the world in both cases. *)
Definition M (A : Type) : Type := World -> (Py.Exn + A) * World.

Definition ret {A : Type} (a : A) : M A := fun w => (inr a, w).

Definition raise {A : Type} (e : Py.Exn) : M A := fun w => (inl e, w).

Definition bind {A B : Type} (c : M A) (k : A -> M B) : M B :=
  fun w =>
    match c w with
    | (inr a, w1) => k a w1
    | (inl e, w1) => (inl e, w1)
    end.

Notation "x <- c ;; k" := (bind c (fun x => k))
  (at level 61, c at next level, right associativity).
Notation "c ;;; k" := (bind c (fun _ => k))
  (at level 61, right associativity).

(** [try: body  except Exception as e: handler(e)]. *)
Definition try_except {A : Type} (body : M A) (handler : Py.Exn -> M A) : M A :=
  fun w =>
    match body w with
    | (inr a, w1) => (inr a, w1)
    | (inl e, w1) => handler e w1
    end.

Definition lift {A : Type} (r : Py.Exn + A) : M A := fun w => (r, w).

(** [d[k]] on an optional entry. *)
Definition item {A : Type} (key : string) (o : option A) : M A :=
  match o with Some a => ret a | None => raise (Py.KeyError key) end.

Definition get_self : M Miner := fun w => (inr (self w), w).

Definition update_self (f : Miner -> Miner) : M unit :=
  fun w => (inr tt, {| self := f (self w); tick := tick w; trace := trace w |}).

Definition emit (e : Effect) : M unit :=
  fun w => (inr tt, {| self := self w; tick := tick w; trace := trace w ++ [e] |}).

Definition print (m : Msg) : M unit := emit (Print m).

Definition next_tick (w : World) : World :=
  {| self := self w; tick := S (tick w); trace := trace w |}.

Section Effects.

Variable env : Env.

(** [time.time()]. *)
Definition time_time : M Py.float :=
  fun w => (inr (time env (tick w)), next_tick w).

(** [requests.post(f"{self.cysic_endpoint}/prove", json=proof_request, ...)]. *)
Definition requests_post_prove (url : string) (req : ProofRequest)
  : M ProveResponse :=
  emit (PostProve url req) ;;;
  fun w =>
    match post_prove env (tick w) url req with
    | Some r => (inr r, next_tick w)
    | None => (inl Py.RequestException, next_tick w)
    end.

(** [requests.post(f"{self.nuchain_rpc}/broadcast_tx_commit", json=...)]. *)
Definition requests_post_broadcast (url : string) (tx : string)
  : M BroadcastResponse :=
  emit (PostBroadcast url tx) ;;;
  fun w =>
    match post_broadcast env (tick w) url tx with
    | Some r => (inr r, next_tick w)
    | None => (inl Py.RequestException, next_tick w)
    end.

(** [asyncio.gather(.., return_exceptions=True)] over coroutines
    that never suspend: they run one after the other in list order, and
    an exception becomes an entry of the result list. *)
Fixpoint gather {A : Type} (tasks : list (M A)) : M (list (Py.Exn + A)) :=
  match tasks with
  | [] => ret []
  | task :: tasks' =>
      fun w =>
        let (r, w1) := task w in
        match gather tasks' w1 with
        | (inr rs, w2) => (inr (r :: rs), w2)
        | (inl e, w2) => (inl e, w2)
        end
  end.

(* ------------------------------------------------------------------- *)
(** *** Prover client                                                  *)
(* ------------------------------------------------------------------- *)

(** The dictionary [data] of [prepare_public_inputs]. *)
Definition public_input_data (hw : string) (rig : MiningRig)
    (block_height timestamp : Z) : Json.value :=
  Json.JDict
    [ ("rig_id", Json.JInt (rig_id rig));
      ("owner", Json.JStr (owner rig));
      ("components", Json.JList (map Json.JInt (components rig)));
      ("hash_power", Json.JInt (hash_power rig));
      ("watt_consumption", Json.JInt (watt_consumption rig));
      ("block_height", Json.JInt block_height);
      ("timestamp", Json.JInt timestamp);
      ("hardware_id", Json.JStr hw) ].

(** [hashlib.sha256(json.dumps(data, sort_keys=True).encode()).digest()]. *)
Definition public_input_digest (hw : string) (rig : MiningRig)
    (block_height timestamp : Z) : list byte :=
  Sha256.digest
    (Bytes.encode (Json.dumps true (public_input_data hw rig block_height timestamp))).

(** The text that [prepare_public_inputs] hashes, written out: the eight
    items of [data] in the order of their keys. *)
Definition public_input_text (hw : string) (rig : MiningRig)
    (block_height timestamp : Z) : string :=
  "{"
  +++ Json.join ", "
        [ Json.quote "block_height" +++ ": " +++ Py.str_int block_height;
          Json.quote "components" +++ ": "
            +++ "[" +++ Json.join ", " (map Py.str_int (components rig)) +++ "]";
          Json.quote "hardware_id" +++ ": " +++ Json.quote hw;
          Json.quote "hash_power" +++ ": " +++ Py.str_int (hash_power rig);
          Json.quote "owner" +++ ": " +++ Json.quote (owner rig);
          Json.quote "rig_id" +++ ": " +++ Py.str_int (rig_id rig);
          Json.quote "timestamp" +++ ": " +++ Py.str_int timestamp;
          Json.quote "watt_consumption" +++ ": "
            +++ Py.str_int (watt_consumption rig) ]
  +++ "}".

(** [prepare_public_inputs]. *)
Definition prepare_public_inputs (rig : MiningRig) (block_height : Z)
  : M (list byte) :=
  me <- get_self ;;
  now <- time_time ;;
  timestamp <- lift (Py.int_of_float now) ;;
  ret (public_input_digest (hardware_id me) rig block_height timestamp).

Definition proof_request (me : Miner) (rig : MiningRig) (block_height : Z)
    (inputs : list byte) : ProofRequest :=
  {| req_rig_id := rig_id rig;
     req_hash_power := hash_power rig;
     req_watt_consumption := watt_consumption rig;
     req_block_height := block_height;
     req_public_inputs := Bytes.hex inputs;
     req_hardware_id := hardware_id me;
     req_asic_resistant := asic_resistant me |}.

(** [response.json()]. *)
Definition response_json {A : Type} (body : option A) : M A :=
  match body with Some a => ret a | None => raise Py.JSONDecodeError end.

(** [bytes.fromhex(proof_data[key])]. *)
Definition fromhex_item (key : string) (o : option string) : M (list byte) :=
  s <- item key o ;;
  match Bytes.fromhex s with
  | Some bs => ret bs
  | None => raise Py.ValueError
  end.

(** [generate_cysic_proof_for_rig]. *)
Definition generate_cysic_proof_for_rig (rig : MiningRig) (block_height : Z)
  : M (option CysicProof) :=
  try_except
    (start <- time_time ;;
     inputs <- prepare_public_inputs rig block_height ;;
     me <- get_self ;;
     response <- requests_post_prove (cysic_endpoint me +++ "/prove")
                   (proof_request me rig block_height inputs) ;;
     if prove_status response =? 200 then
       proof_data <- response_json (prove_json response) ;;
       now <- time_time ;;
       generation_time <-
         lift (Py.int_of_float (Py.fmul (Py.fsub now start) (Py.float_of_int 1000))) ;;
       pbytes <- fromhex_item "proof" (pd_proof proof_data) ;;
       vkey <- fromhex_item "verification_key" (pd_verification_key proof_data) ;;
       update_self (fun m => with_proofs_generated (proofs_generated m + 1) m) ;;;
       print (MsgProofGenerated (rig_id rig) generation_time) ;;;
       ret (Some {| proof_bytes := pbytes;
                    public_inputs := inputs;
                    verification_key := vkey;
                    proof_hardware_id := hardware_id me;
                    generation_time_ms := generation_time |})
     else
       print (MsgProofFailed (prove_text response)) ;;;
       ret None)
    (fun e => print (MsgProofError (rig_id rig) e) ;;; ret None).

(* ------------------------------------------------------------------- *)
(** *** Proof dispatcher                                               *)
(* ------------------------------------------------------------------- *)

(** The list [tasks] built by [trigger_proof_generation]. *)
Definition tasks_for (active : list MiningRig) (block_height : Z)
  : list (M (option CysicProof)) :=
  map (fun rig => generate_cysic_proof_for_rig rig block_height) active.

(** The awaited [asyncio.gather(.., return_exceptions=True)] of
    [trigger_proof_generation], with its result list. *)
Definition fan_out (block_height : Z) : M (list (Py.Exn + option CysicProof)) :=
  me <- get_self ;;
  gather (tasks_for (Registry.active_rigs me) block_height).

(** [trigger_proof_generation]: the gathered results are not used. *)
Definition trigger_proof_generation (block_height : Z) : M unit :=
  me <- get_self ;;
  match Registry.active_rigs me with
  | [] => ret tt
  | _ :: _ => fan_out block_height ;;; ret tt
  end.

(** The dispatcher called once per Trigger, in arrival order. *)
Fixpoint run_triggers (heights : list Z) : M unit :=
  match heights with
  | [] => ret tt
  | h :: heights' => trigger_proof_generation h ;;; run_triggers heights'
  end.

(* ------------------------------------------------------------------- *)
(** *** Submission to nuChain                                          *)
(* ------------------------------------------------------------------- *)

(** [encode_mining_payload]. *)
Definition encode_mining_payload (rig : MiningRig) (proof : CysicProof)
    (block_height : Z) : M string :=
  now <- time_time ;;
  timestamp <- lift (Py.int_of_float now) ;;
  ret (Json.dumps false
         (Json.JDict
            [ ("miner_address", Json.JStr (owner rig));
              ("nuchain_address", Json.JStr (nuchain_address rig));
              ("rig_ids", Json.JList [Json.JInt (rig_id rig)]);
              ("total_hash_power", Json.JInt (hash_power rig));
              ("total_watt_cost", Json.JInt (watt_consumption rig));
              ("cysic_proof", Json.JStr (Bytes.hex (proof_bytes proof)));
              ("public_inputs", Json.JStr (Bytes.hex (public_inputs proof)));
              ("hardware_id", Json.JStr (proof_hardware_id proof));
              ("block_height", Json.JInt block_height);
              ("timestamp", Json.JInt timestamp) ])).

(** [encode_cosmos_tx]. *)
Definition encode_cosmos_tx (tx_data : Json.value) : string :=
  Json.dumps false tx_data.

(** [result.get('result', {}).get('code') == 0]. *)
Definition code_is_zero (result : option TxResult) : bool :=
  match result with
  | Some r => match tx_code r with Some c => c =? 0 | None => false end
  | None => false
  end.

(** [result['result']['hash']]. *)
Definition result_hash (result : option TxResult) : M string :=
  r <- item "result" result ;;
  item "hash" (tx_hash r).

(** [submit_to_nuchain]. *)
Definition submit_to_nuchain (rig : MiningRig) (proof : CysicProof)
    (block_height : Z) : M unit :=
  try_except
    (me <- get_self ;;
     creator <- item "relayer_address" (cfg_relayer_address (config me)) ;;
     payload <- encode_mining_payload rig proof block_height ;;
     now <- time_time ;;
     nonce <- lift (Py.int_of_float now) ;;
     let tx_data :=
       Json.JDict
         [ ("type", Json.JStr "mining/ProcessCrossChainMessage");
           ("value",
            Json.JDict
              [ ("creator", Json.JStr creator);
                ("source_chain", Json.JStr "cysic-hardware-mining");
                ("message_type", Json.JStr "cysic_proof_submission");
                ("payload", Json.JStr payload);
                ("nonce", Json.JInt nonce) ]) ] in
     response <- requests_post_broadcast (nuchain_rpc me +++ "/broadcast_tx_commit")
                   (encode_cosmos_tx tx_data) ;;
     if bc_status response =? 200 then
       result <- response_json (bc_json response) ;;
       if code_is_zero result then
         hash <- result_hash result ;;
         print (MsgSubmitted hash) ;;;
         update_self (fun m => with_total_rewards (total_rewards m + 1) m)
       else
         print (MsgSubmissionFailed result)
     else
       ret tt)
    (fun e => print (MsgSubmissionError e)).

(* ------------------------------------------------------------------- *)
(** *** Block monitor                                                  *)
(* ------------------------------------------------------------------- *)

(** A message received on the socket, by what the loop body does with
    it: a new block with its height, a message without ['result'] or
    without ['data'] in it, or one on which parsing raises. *)
Inductive Frame : Type :=
| NewBlock (block_height : Z)
| Ignored
| Malformed (e : Py.Exn).

(** How [async for message in websocket] ends: the iteration stops, or
    it raises. *)
Inductive StreamEnd : Type :=
| Closed
| Failed (e : Py.Exn).

(** One call of [websockets.connect]. *)
Inductive Session : Type :=
| ConnectFails (e : Py.Exn)
| Connected (frames : list Frame) (ending : StreamEnd).

(** [s.replace('http', 'ws')]. *)
Fixpoint http_to_ws (s : string) : string :=
  match s with
  | String "h" (String "t" (String "t" (String "p" rest))) => "ws" +++ http_to_ws rest
  | String c rest => String c (http_to_ws rest)
  | EmptyString => EmptyString
  end.

Definition subscription : Json.value :=
  Json.JDict
    [ ("jsonrpc", Json.JStr "2.0");
      ("method", Json.JStr "subscribe");
      ("params", Json.JList [Json.JStr "tm.event = 'NewBlock'"]);
      ("id", Json.JInt 1) ].

(** The interpreter's recursion limit, as the monitor meets it.  Every
    retry of [monitor_nuchain_blocks] runs inside the invocation that
    failed, so the call stack grows with the number of consecutive
    failures, and a call that needs frames of its own raises
    [RecursionError] once the invocation that makes it is too deep.  Two
    calls of the monitor are concerned, [trigger_proof_generation] (with
    the [asyncio.gather] in it) and [asyncio.sleep]; each has its limit,
    the number of active invocations from which on the call no longer
    gets its frames.  The numbers depend on [sys.getrecursionlimit()]
    (1000 by default) and on the frames the event loop and the libraries
    use.  The prover client runs in tasks of its own, started by the
    event loop outside the stack of the monitor: what needs frames in the
    dispatcher is the scheduling of these tasks, and a call that does not
    get them raises before any task runs.  A [RecursionError] met by
    [websockets.connect] or by the parsing of a message is part of the
    script of sessions. *)
Record Stack : Type := mkStack {
  dispatch_limit : nat;
  sleep_limit : nat
}.

(** A call made by the invocation of the monitor at [depth]: it runs when
    the invocation is shallower than the limit of the call, and raises
    before it does anything otherwise. *)
Definition call_at_depth {A : Type} (limit depth : nat) (c : M A) : M A :=
  if (depth <? limit)%nat then c else raise Py.RecursionError.

(** The body of [async for message in websocket], in the invocation at
    [depth]. *)
Fixpoint handle_frames (stack : Stack) (depth : nat) (frames : list Frame)
  : M unit :=
  match frames with
  | [] => ret tt
  | NewBlock h :: frames' =>
      print (MsgNewBlock h) ;;;
      call_at_depth (dispatch_limit stack) depth (trigger_proof_generation h) ;;;
      handle_frames stack depth frames'
  | Ignored :: frames' => handle_frames stack depth frames'
  | Malformed e :: _ => raise e
  end.

(** The [try] block of [monitor_nuchain_blocks] on one connection. *)
Definition run_session (stack : Stack) (s : Session) (depth : nat) : M unit :=
  me <- get_self ;;
  emit (Connect (http_to_ws (nuchain_rpc me) +++ "/websocket") depth) ;;;
  match s with
  | ConnectFails e => raise e
  | Connected frames ending =>
      emit (Send (Json.dumps false subscription)) ;;;
      print MsgMonitoring ;;;
      handle_frames stack depth frames ;;;
      match ending with
      | Closed => ret tt
      | Failed e => raise e
      end
  end.

(** How a run of the monitor over a finite script of connections ends,
    when no exception escapes: the outermost invocation returned, or the
    script ran out while an invocation was about to connect again. *)
Inductive MonitorExit : Type :=
| Returned
| ScriptExhausted.

(** [monitor_nuchain_blocks]: [sessions] is what the successive calls of
    [websockets.connect] deliver, [depth] the number of invocations of
    the method that are active, this one included.  The handler calls
    the method again from inside the failed invocation.  An exception
    raised in the handler is caught nowhere: the enclosing invocations
    are all in their handlers, outside their [try] blocks.  The retry
    itself needs one frame, no more than the sleep before it, so it is
    at the sleep that the recursion limit is met. *)
Fixpoint monitor_nuchain_blocks (stack : Stack) (sessions : list Session)
    (depth : nat) : M MonitorExit :=
  match sessions with
  | [] => ret ScriptExhausted
  | s :: sessions' =>
      try_except
        (run_session stack s depth ;;; ret Returned)
        (fun e =>
           print (MsgMonitoringFailed e) ;;;
           call_at_depth (sleep_limit stack) depth (emit (Sleep 5)) ;;;
           monitor_nuchain_blocks stack sessions' (S depth))
  end.

End Effects.

(* ===================================================================== *)
(** ** Statistics: one turn of [monitor_mining_stats]                     *)
(* ===================================================================== *)

Module Stats.

(** A Python number: [int] or [float]. *)
Inductive number : Type :=
| Int (n : Z)
| Float (x : Py.float).

(** The values stored in the [stats] dictionary. *)
Inductive value : Type :=
| VNum (n : number)
| VStr (s : string).

(** Nearest integer to [num / den], ties to even ([0 <= num], [0 < den]). *)
Definition round_half_even (num den : Z) : Z :=
  let q := num / den in
  match 2 * (num mod den) ?= den with
  | Lt => q
  | Gt => q + 1
  | Eq => if Z.even q then q else q + 1
  end.

(** [round(x, 2)] on a [float]: the nearest multiple of [1/100] to the
    exact value of [x], ties to even, then the nearest [float] to it. *)
Definition round2_float (x : Py.float) : Py.float :=
  match x with
  | S754_finite s m e =>
      let hundredths :=
        if 0 <=? e then Z.pos m * 2 ^ e * 100
        else round_half_even (Z.pos m * 100) (2 ^ (- e)) in
      match hundredths with
      | Z.pos _ =>
          let '(mz, ez, lz) :=
            SFdiv_core_binary Py.prec Py.emax hundredths 0 100 0 in
          binary_round_aux Py.prec Py.emax s mz ez lz
      | _ => S754_zero s
      end
  | _ => x
  end.

(** [round(x, 2)]. *)
Definition round2 (x : number) : number :=
  match x with
  | Int n => Int n
  | Float y => Float (round2_float y)
  end.

(** [sum(...)] of integers. *)
Definition sum (l : list Z) : Z := fold_left Z.add l 0.

(** [self.proofs_generated / uptime if uptime > 0 else 0]. *)
Definition proofs_per_second (generated : Z) (uptime : Py.float)
  : Py.Exn + number :=
  if Py.flt (Py.float_of_int 0) uptime then
    match Py.int_truediv_float generated uptime with
    | inr q => inr (Float q)
    | inl e => inl e
    end
  else inr (Int 0).

(** The dictionary [stats] built in the loop body, [now] being the
    reading of [time.time()]; [inl] when the body raises. *)
Definition monitor_mining_stats (me : Miner) (now : Py.float)
  : Py.Exn + Py.dict value :=
  let uptime := Py.fsub now (start_time me) in
  match proofs_per_second (proofs_generated me) uptime with
  | inl e => inl e
  | inr pps =>
      let total_hash_power := sum (map hash_power (Py.values (mining_rigs me))) in
      let total_watt_consumption :=
        sum (map watt_consumption (Py.values (mining_rigs me))) in
      match Py.int_of_float uptime with
      | inl e => inl e
      | inr uptime_seconds =>
          inr [ ("uptime_seconds", VNum (Int uptime_seconds));
                ("proofs_generated", VNum (Int (proofs_generated me)));
                ("proofs_per_second", VNum (round2 pps));
                ("total_hash_power", VNum (Int total_hash_power));
                ("total_watt_consumption", VNum (Int total_watt_consumption));
                ("hardware_id", VStr (hardware_id me));
                ("active_rigs",
                 VNum (Int (Z.of_nat (List.length (Registry.active_rigs me)))));
                ("total_rewards", VNum (Int (total_rewards me))) ]
      end
  end.

End Stats.

(* ===================================================================== *)
(** ** Observations on runs                                               *)
(* ===================================================================== *)

(** The effects a computation adds to the trace of the world it starts in. *)
Definition effects_of {A : Type} (c : M A) (w : World) : list Effect :=
  skipn (List.length (trace w)) (trace (snd (c w))).

(** The prover calls of a trace, as (rig id, block height) of the request. *)
Definition prove_calls (t : list Effect) : list (Z * Z) :=
  flat_map (fun e => match e with
                     | PostProve _ req => [(req_rig_id req, req_block_height req)]
                     | _ => []
                     end) t.

Definition call_eq_dec (x y : Z * Z) : {x = y} + {x <> y}.
Proof. decide equality; apply Z.eq_dec. Defined.

(** The transactions posted to nuChain. *)
Definition broadcasts (t : list Effect) : list string :=
  flat_map (fun e => match e with PostBroadcast _ tx => [tx] | _ => [] end) t.

(** The effects of the monitor itself: the connection, the subscription,
    the sleep and the lines the monitor prints. *)
Definition monitor_effect (e : Effect) : bool :=
  match e with
  | Connect _ _ | Send _ | Sleep _
  | Print MsgMonitoring | Print (MsgNewBlock _) | Print (MsgMonitoringFailed _) => true
  | _ => false
  end.

(** What is left of a trace of the monitor when its own effects are taken
    out: the effects of the calls of the dispatcher it made (line 210). *)
Definition dispatched (t : list Effect) : list Effect :=
  filter (fun e => negb (monitor_effect e)) t.

(** The delays slept, in seconds. *)
Definition sleeps (t : list Effect) : list Z :=
  flat_map (fun e => match e with Sleep s => [s] | _ => [] end) t.

(** The call depth of the monitor at each connection attempt. *)
Definition connect_depths (t : list Effect) : list nat :=
  flat_map (fun e => match e with Connect _ d => [d] | _ => [] end) t.

(** The transaction hashes reported as submitted. *)
Definition submitted (t : list Effect) : list string :=
  flat_map (fun e => match e with Print (MsgSubmitted h) => [h] | _ => [] end) t.

(** The submission failures reported. *)
Definition submission_failures (t : list Effect) : list Msg :=
  flat_map (fun e => match e with
                     | Print (MsgSubmissionFailed r) => [MsgSubmissionFailed r]
                     | Print (MsgSubmissionError x) => [MsgSubmissionError x]
                     | _ => []
                     end) t.

(** The attributes of the miner that no modelled method but the registry
    refresh assigns. *)
Definition setup (m : Miner) :=
  (config m, mining_rigs m, hardware_id m, cysic_endpoint m,
   nuchain_rpc m, oracle_contracts m, asic_resistant m, start_time m).

(** The successful entries of a gathered result list. *)
Definition successes {E A : Type} (rs : list (E + option A)) : list A :=
  flat_map (fun r => match r with inr (Some a) => [a] | _ => [] end) rs.

(** The clock only gives finite readings. *)
Definition finite_clock (env : Env) : Prop :=
  forall n : nat, Py.is_finite (time env n) = true.

(** Whether the invocation of the monitor at [depth] can still call the
    dispatcher, and whether its handler can still sleep. *)
Definition dispatching (stack : Stack) (depth : nat) : bool :=
  (depth <? dispatch_limit stack)%nat.

Definition sleeping (stack : Stack) (depth : nat) : bool :=
  (depth <? sleep_limit stack)%nat.

(** The heights for which the loop over the messages of a connection
    calls the dispatcher: those of the blocks it delivers, up to the first
    message on which parsing raises; none when the invocation is too deep
    for the call ([can_dispatch] is false). *)
Fixpoint frame_heights (can_dispatch : bool) (frames : list Frame) : list Z :=
  match frames with
  | [] => []
  | NewBlock h :: frames' =>
      if can_dispatch then h :: frame_heights can_dispatch frames' else []
  | Ignored :: frames' => frame_heights can_dispatch frames'
  | Malformed _ :: _ => []
  end.

Definition session_heights (can_dispatch : bool) (s : Session) : list Z :=
  match s with
  | ConnectFails _ => []
  | Connected frames _ => frame_heights can_dispatch frames
  end.

(** Whether the loop over the frames raises. *)
Fixpoint frames_raise (can_dispatch : bool) (frames : list Frame) : bool :=
  match frames with
  | [] => false
  | NewBlock _ :: frames' =>
      if can_dispatch then frames_raise can_dispatch frames' else true
  | Ignored :: frames' => frames_raise can_dispatch frames'
  | Malformed _ :: _ => true
  end.

(** Whether the [try] block raises on a connection. *)
Definition session_raises (can_dispatch : bool) (s : Session) : bool :=
  match s with
  | ConnectFails _ => true
  | Connected frames Closed => frames_raise can_dispatch frames
  | Connected frames (Failed _) => true
  end.

(** Whether the invocation at [depth] connects again after the
    connection [s]: its [try] block raised and its handler could sleep. *)
Definition retried (stack : Stack) (depth : nat) (s : Session) : bool :=
  session_raises (dispatching stack depth) s && sleeping stack depth.

(** The connections the monitor gets to, the first one at [depth]: all up
    to the first one that is not followed by a retry. *)
Fixpoint reached (stack : Stack) (depth : nat) (sessions : list Session)
  : list Session :=
  match sessions with
  | [] => []
  | s :: sessions' =>
      s :: (if retried stack depth s then reached stack (S depth) sessions' else [])
  end.

(** The heights for which the monitor calls the dispatcher, over all the
    connections it gets to, in arrival order. *)
Fixpoint triggered (stack : Stack) (depth : nat) (sessions : list Session)
  : list Z :=
  match sessions with
  | [] => []
  | s :: sessions' =>
      session_heights (dispatching stack depth) s
      ++ (if retried stack depth s then triggered stack (S depth) sessions' else [])
  end.

(** The number of retries: of connections after which the monitor slept
    and called itself. *)
Fixpoint retries (stack : Stack) (depth : nat) (sessions : list Session) : nat :=
  match sessions with
  | [] => 0
  | s :: sessions' =>
      if retried stack depth s then S (retries stack (S depth) sessions') else 0
  end.

(** How the run ends: the [try] block of the last connection ended
    without an exception, or the script ran out, or a handler could not
    sleep any more and [RecursionError] escaped from the outermost
    invocation. *)
Fixpoint outcome (stack : Stack) (depth : nat) (sessions : list Session)
  : Py.Exn + MonitorExit :=
  match sessions with
  | [] => inr ScriptExhausted
  | s :: sessions' =>
      if session_raises (dispatching stack depth) s then
        if sleeping stack depth then outcome stack (S depth) sessions'
        else inl Py.RecursionError
      else inr Returned
  end.

(** The world [w] with the effects [pre] put before its trace. *)
Definition rebase (pre : list Effect) (w : World) : World :=
  {| self := self w; tick := tick w; trace := pre ++ trace w |}.

(** A computation that only appends to the trace and never reads it: it
    does the same whatever was done before. *)
Definition trace_blind {A : Type} (c : M A) : Prop :=
  forall (pre : list Effect) (w : World),
    c (rebase pre w) = (fst (c w), rebase pre (snd (c w))).

(** [w'] comes after [w]: the trace grew by [added], the setup is the same. *)
Definition extends (w w' : World) (added : list Effect) : Prop :=
  trace w' = trace w ++ added /\ setup (self w') = setup (self w).

(** The effects the prover client can have. *)
Definition dispatch_effect (e : Effect) : Prop :=
  match e with
  | PostProve _ _
  | Print (MsgProofGenerated _ _)
  | Print (MsgProofFailed _)
  | Print (MsgProofError _ _) => True
  | _ => False
  end.

(** The calls of one trigger: every active rig, at the trigger's height. *)
Definition calls_at (active : list MiningRig) (h : Z) : list (Z * Z) :=
  map (fun rig => (rig_id rig, h)) active.

(* ===================================================================== *)
(** ** The specification's statements that the code is checked against    *)
(* ===================================================================== *)

Module Spec.

(** Dispatcher deduplication: over Triggers of non-decreasing heights,
    at most one prover call per (rig, height). *)
Definition dispatch_at_most_once : Prop :=
  forall (env : Env) (w : World) (heights : list Z) (rig h : Z),
    Sorted Z.le heights ->
    (count_occ call_eq_dec
       (prove_calls (effects_of (run_triggers env heights) w)) (rig, h) <= 1)%nat.

(** Monitor watermark: the Triggers a run of the monitor emits are those
    of a strictly increasing sequence of heights.  Emitting a Trigger is
    calling the dispatcher: what the run does to the prover is what the
    dispatcher does when it is called once for each height of such a
    sequence. *)
Definition triggers_strictly_increase : Prop :=
  forall (env : Env) (stack : Stack) (sessions : list Session) (w : World),
    exists heights : list Z,
      StronglySorted Z.lt heights
      /\ dispatched (effects_of (monitor_nuchain_blocks env stack sessions 1) w)
         = effects_of (run_triggers env heights) w.

(** Submission retry: when the first attempt meets a network error and
    the ledger accepts every later request, a second attempt is made. *)
Definition submission_retried : Prop :=
  forall (env : Env) (w : World) (rig : MiningRig) (proof : CysicProof)
         (h : Z) (creator : string) (accepted : BroadcastResponse),
    finite_clock env ->
    cfg_relayer_address (config (self w)) = Some creator ->
    (forall url tx, post_broadcast env (2 + tick w) url tx = None) ->
    (forall n url tx, (2 + tick w < n)%nat ->
                      post_broadcast env n url tx = Some accepted) ->
    (2 <= List.length
            (broadcasts (effects_of (submit_to_nuchain env rig proof h) w)))%nat.

(** Copy-and-swap refresh: the published dictionary only ever holds the
    complete old or the complete new content. *)
Definition refresh_swaps : Prop :=
  forall (me : Miner) (chain : string) (d : Py.dict MiningRig),
    In d (Registry.refresh_states me chain) ->
    d = mining_rigs me \/
    d = mining_rigs (fst (Registry.load_rigs_from_chain me chain)).

(** Forwarding: a fan-out posts at least as many transactions as it
    generated proofs. *)
Definition successes_forwarded : Prop :=
  forall (env : Env) (w : World) (h : Z),
    proofs_generated (self (snd (trigger_proof_generation env h w)))
      - proofs_generated (self w)
    <= Z.of_nat (List.length
                   (broadcasts (effects_of (trigger_proof_generation env h) w))).

(** Loop-shaped reconnect: every connection is opened by the one
    outermost invocation of the monitor. *)
Definition reconnects_in_a_loop : Prop :=
  forall (env : Env) (stack : Stack) (sessions : list Session) (w : World),
    Forall (fun depth => depth = 1%nat)
      (connect_depths (effects_of (monitor_nuchain_blocks env stack sessions 1) w)).

(** Digest determinism as claimed: on one miner and at one reading of the
    clock, two rigs with the same identity ([rig_id], [owner]) and the
    same declared capacity ([hash_power], [watt_consumption]) get the same
    digest at the same height. *)
Definition digest_fixed_by_identity_and_capacity : Prop :=
  forall (env : Env) (w : World) (rig1 rig2 : MiningRig) (h : Z),
    rig_id rig1 = rig_id rig2 ->
    owner rig1 = owner rig2 ->
    hash_power rig1 = hash_power rig2 ->
    watt_consumption rig1 = watt_consumption rig2 ->
    fst (prepare_public_inputs env rig1 h w)
    = fst (prepare_public_inputs env rig2 h w).

(** The seven fields of the Stats contract, under the names the code
    gives them. *)
Definition stats_fields : list string :=
  [ "uptime_seconds"; "proofs_generated"; "proofs_per_second";
    "total_hash_power"; "total_watt_consumption"; "active_rigs";
    "total_rewards" ].

Definition snapshot_has_exactly_stats_fields : Prop :=
  forall (me : Miner) (now : Py.float) (stats : Py.dict Stats.value),
    Stats.monitor_mining_stats me now = inr stats ->
    Py.keys stats = stats_fields.

End Spec.

(* ===================================================================== *)
(** ** A concrete miner and concrete outside worlds                       *)
(* ===================================================================== *)

Module Fixture.

(** The configuration at the end of the source file, with the oracle of
    Altcoinchain only. *)
Definition cfg : Config :=
  {| cfg_hardware_id := Some "nvidia-a100";
     cfg_cysic_endpoint := Some "https://api.cysic.xyz/v1";
     cfg_cysic_api_key := Some "your_cysic_api_key_here";
     cfg_nuchain_rpc := Some "http://localhost:26657";
     cfg_relayer_address := Some "nu1relayer000000000000000000000000000000000";
     cfg_oracle_contracts :=
       Some [ ("altcoinchain",
               {| oc_address := Some "0x0000000000000000000000000000000000000000";
                  oc_rpc := Some "TBD" |}) ];
     cfg_asic_resistant := Some true |}.

Definition epoch : Py.float := Py.float_of_int 1700000000.

(** The miner right after [__init__], and after [load_mining_rigs]. *)
Definition fresh : Miner := init cfg epoch.
Definition miner : Miner := Registry.load_mining_rigs fresh.

Definition world : World := {| self := miner; tick := 0; trace := [] |}.

Definition proved : ProveResponse :=
  {| prove_status := 200;
     prove_text := "";
     prove_json := Some {| pd_proof := Some "0a0b";
                           pd_verification_key := Some "ff" |} |}.

Definition accepted : BroadcastResponse :=
  {| bc_status := 200;
     bc_json := Some (Some {| tx_code := Some 0; tx_hash := Some "ABCD" |}) |}.

(** One second passes between two interactions, for the first thousand
    of them: [(1700000000 + n) * 2^22 * 2^-22] as a binary64 value. *)
Definition clock (n : nat) : Py.float :=
  S754_finite false
    (Z.to_pos ((1700000000 + Z.of_nat (Nat.min n 1000)) * 2 ^ 22)) (-22).

(** A world where every request succeeds. *)
Definition env_ok : Env :=
  {| time := clock;
     post_prove := fun _ _ _ => Some proved;
     post_broadcast := fun _ _ _ => Some accepted |}.

(** A world whose ledger is unreachable for the request made as third
    interaction and accepts every later one. *)
Definition env_flaky : Env :=
  {| time := clock;
     post_prove := fun _ _ _ => Some proved;
     post_broadcast := fun n _ _ => if (n <=? 2)%nat then None else Some accepted |}.

(** A world whose prover is unreachable for rig 1 and answers for the
    other rigs. *)
Definition env_rig1_fails : Env :=
  {| time := clock;
     post_prove := fun _ _ req => if req_rig_id req =? 1 then None else Some proved;
     post_broadcast := fun _ _ _ => Some accepted |}.

(** A clock that reads a fraction of a second after [epoch]. *)
Definition env_later : Env :=
  {| time := fun _ => S754_finite false (Z.to_pos (1700000000 * 2 ^ 22 + 1)) (-22);
     post_prove := fun _ _ _ => None;
     post_broadcast := fun _ _ _ => None |}.

(** Rig 1 of the registry, deactivated and paid to another address. *)
Definition rig_1_moved : MiningRig :=
  {| rig_id := 1;
     owner := "0x742d35Cc6634C0532925a3b8D0C9e3e0C8b4c8e8";
     components := [1; 3; 4];
     hash_power := 2000000;
     watt_consumption := 445;
     nuchain_address := "nu1miner222222222222222222222222222222222";
     is_active := false |}.

(** Rig 1 of the registry with another GPU among its components. *)
Definition rig_1_upgraded : MiningRig :=
  {| rig_id := 1;
     owner := "0x742d35Cc6634C0532925a3b8D0C9e3e0C8b4c8e8";
     components := [1; 3; 5];
     hash_power := 2000000;
     watt_consumption := 445;
     nuchain_address := "nu1miner000000000000000000000000000000000";
     is_active := true |}.

(** Limits of the order of those CPython has with its default recursion
    limit of 1000. *)
Definition stack : Stack := {| dispatch_limit := 980; sleep_limit := 986 |}.

(** A stack that leaves room for three invocations. *)
Definition shallow : Stack := {| dispatch_limit := 3; sleep_limit := 3 |}.

Definition proof : CysicProof :=
  {| proof_bytes := [x0a; x0b];
     public_inputs := [];
     verification_key := [xff];
     proof_hardware_id := "nvidia-a100";
     generation_time_ms := 3000 |}.

End Fixture.

(* ===================================================================== *)
(** ** Time-driven generation: one turn of [generate_cysic_proofs]        *)
(* ===================================================================== *)

(** The [if] statement of the loop body (lines 307-309): with a non-empty
    registry the dispatcher is triggered with the wall-clock second as
    block height.  The surrounding [try], the sleep of half a second and
    the next turn are not part of it. *)
Definition generate_cysic_proofs_turn (env : Env) : M unit :=
  me <- get_self ;;
  if Py.nonempty (mining_rigs me) then
    now <- time_time env ;;
    block_height <- lift (Py.int_of_float now) ;;
    trigger_proof_generation env block_height
  else ret tt.

(* ===================================================================== *)
(** ** Further observations                                               *)
(* ===================================================================== *)

(** The lines printed. *)
Definition printed (t : list Effect) : list Msg :=
  flat_map (fun e => match e with Print m => [m] | _ => [] end) t.

(** The requests posted to the prover. *)
Definition prove_requests (t : list Effect) : list ProofRequest :=
  flat_map (fun e => match e with PostProve _ req => [req] | _ => [] end) t.

(** The proof and the verification key of a prover answer, when both keys
    are present and both values are hexadecimal text. *)
Definition decoded (response : ProveResponse) : option (list byte * list byte) :=
  match prove_json response with
  | Some data =>
      match pd_proof data, pd_verification_key data with
      | Some proof_hex, Some key_hex =>
          match Bytes.fromhex proof_hex, Bytes.fromhex key_hex with
          | Some pbytes, Some vkey => Some (pbytes, vkey)
          | _, _ => None
          end
      | _, _ => None
      end
  | None => None
  end.

(** Whether a string is made of printable ASCII characters only. *)
Fixpoint printable (s : string) : bool :=
  match s with
  | EmptyString => true
  | String c s' =>
      let n := Z.of_N (N_of_ascii c) in
      (32 <=? n) && (n <=? 126) && printable s'
  end.

Definition printable_item (kv : string * string) : Prop := printable (snd kv) = true.

(** Induction on JSON values, through the lists they contain. *)
Fixpoint json_value_ind (P : Json.value -> Prop)
    (HInt : forall n, P (Json.JInt n))
    (HStr : forall s, P (Json.JStr s))
    (HList : forall l, Forall P l -> P (Json.JList l))
    (HDict : forall d, Forall (fun kv => P (snd kv)) d -> P (Json.JDict d))
    (v : Json.value) : P v :=
  match v with
  | Json.JInt n => HInt n
  | Json.JStr s => HStr s
  | Json.JList l =>
      HList l ((fix all (l : list Json.value) : Forall P l :=
                  match l with
                  | [] => Forall_nil P
                  | x :: l' =>
                      Forall_cons x (json_value_ind P HInt HStr HList HDict x) (all l')
                  end) l)
  | Json.JDict d =>
      HDict d ((fix all (d : list (string * Json.value))
                  : Forall (fun kv => P (snd kv)) d :=
                  match d with
                  | [] => Forall_nil _
                  | kv :: d' =>
                      Forall_cons kv
                        (json_value_ind P HInt HStr HList HDict (snd kv)) (all d')
                  end) d)
  end.

(** More concrete miners and outside worlds. *)
Module Sample.

(** The configuration at the end of the source file: both oracles. *)
Definition cfg_both : Config :=
  {| cfg_hardware_id := Some "nvidia-a100";
     cfg_cysic_endpoint := Some "https://api.cysic.xyz/v1";
     cfg_cysic_api_key := Some "your_cysic_api_key_here";
     cfg_nuchain_rpc := Some "http://localhost:26657";
     cfg_relayer_address := Some "nu1relayer000000000000000000000000000000000";
     cfg_oracle_contracts :=
       Some [ ("altcoinchain",
               {| oc_address := Some "0x0000000000000000000000000000000000000000";
                  oc_rpc := Some "TBD" |});
              ("polygon",
               {| oc_address := Some "0x0000000000000000000000000000000000000000";
                  oc_rpc := Some "https://polygon-rpc.com" |}) ];
     cfg_asic_resistant := Some true |}.

(** A configuration without relayer address. *)
Definition cfg_no_relayer : Config :=
  {| cfg_hardware_id := None;
     cfg_cysic_endpoint := None;
     cfg_cysic_api_key := None;
     cfg_nuchain_rpc := None;
     cfg_relayer_address := None;
     cfg_oracle_contracts := None;
     cfg_asic_resistant := None |}.

Definition world_no_relayer : World :=
  {| self := init cfg_no_relayer Fixture.epoch; tick := 0; trace := [] |}.

(** A ledger that answers HTTP 503. *)
Definition env_unavailable : Env :=
  {| time := Fixture.clock;
     post_prove := fun _ _ _ => Some Fixture.proved;
     post_broadcast := fun _ _ _ => Some {| bc_status := 503; bc_json := None |} |}.

(** A ledger that accepts with code 0 and returns no hash. *)
Definition env_no_hash : Env :=
  {| time := Fixture.clock;
     post_prove := fun _ _ _ => Some Fixture.proved;
     post_broadcast := fun _ _ _ =>
       Some {| bc_status := 200;
               bc_json := Some (Some {| tx_code := Some 0; tx_hash := None |}) |} |}.

End Sample.

(* ===================================================================== *)
(** ** Proof automation                                                   *)
(* ===================================================================== *)

(** Unfolding of the monad operations, one step of symbolic execution. *)
Ltac run_monad :=
  unfold try_except, bind, ret, raise, lift, item, response_json, get_self,
    time_time, print, emit, update_self, next_tick;
  cbn [self tick trace fst snd].

(** Case analysis on the innermost scrutinee, until none is left. *)
Ltac split_case :=
  match goal with
  | |- context [match ?x with _ => _ end] =>
      lazymatch x with
      | context [match _ with _ => _ end] => fail
      | _ => destruct x eqn:?
      end
  end.

Ltac split_cases := repeat (split_case; run_monad).

(** Two equations on the same answer of the outside world are merged, or
    refuted when they disagree. *)
Ltac unify_answers :=
  repeat match goal with
         | Ha : ?p = Some _, Hb : ?p = Some _ |- _ =>
             rewrite Ha in Hb; injection Hb as Hb; subst
         | Ha : ?p = Some _, Hb : ?p = None |- _ =>
             rewrite Ha in Hb; discriminate Hb
         | Ha : ?p = None, Hb : ?p = Some _ |- _ =>
             rewrite Ha in Hb; discriminate Hb
         end.

(* ===================================================================== *)
(** * Properties                                                          *)
(* ===================================================================== *)

(** ** Dictionaries *)

Section DictFacts.

Context {V : Type}.
Implicit Types (d : Py.dict V) (k : string) (v : V).

Lemma get_set_same d k v : Py.get k (Py.set k v d) = Some v.
Proof.
  induction d as [|[k' v'] d IH]; simpl.
  - now rewrite String.eqb_refl.
  - destruct (String.eqb k k') eqn:E; simpl; rewrite E; auto.
Qed.

Lemma get_set_other d k k' v : k <> k' -> Py.get k (Py.set k' v d) = Py.get k d.
Proof.
  intros Hne. induction d as [|[k0 v0] d IH]; simpl.
  - destruct (String.eqb_spec k k'); congruence.
  - destruct (String.eqb_spec k' k0) as [->|Hk]; simpl.
    + destruct (String.eqb_spec k k0); congruence.
    + destruct (String.eqb_spec k k0); auto.
Qed.

(** An assignment never removes a key and keeps the order of the keys
    that were there. *)
Lemma keys_set d k v :
  Py.keys (Py.set k v d) = if existsb (String.eqb k) (Py.keys d)
                           then Py.keys d else Py.keys d ++ [k].
Proof.
  unfold Py.keys.
  induction d as [|[k' v'] d IH]; simpl; auto.
  destruct (String.eqb k k') eqn:E; simpl; auto.
  rewrite IH. now destruct (existsb _ _).
Qed.

End DictFacts.

(** ** Strings *)

Lemma append_cancel_l (p a b : string) : p +++ a = p +++ b -> a = b.
Proof.
  induction p as [|c p IH]; simpl; intros H; auto.
  injection H as H. auto.
Qed.

(** ** Registry *)

Lemma mock_keys_differ (chain : string) :
  Registry.rig_key chain Registry.mock_rig_1
  <> Registry.rig_key chain Registry.mock_rig_2.
Proof.
  unfold Registry.rig_key. intros H.
  apply append_cancel_l in H. discriminate H.
Qed.

(** C4 (counterexample).  The refresh edits the published dictionary in
    place, entry by entry: on the freshly built miner the refresh of
    Altcoinchain takes the dictionary through a content with rig 1 only,
    which is neither the empty old content nor the complete new one. *)
Lemma refresh_edits_published_registry_in_place : ~ Spec.refresh_swaps.
Proof.
  intros H.
  specialize (H Fixture.fresh "altcoinchain"
                [(Registry.rig_key "altcoinchain" Registry.mock_rig_1,
                  Registry.mock_rig_1)]).
  destruct H as [H|H].
  - vm_compute. auto.
  - vm_compute in H. discriminate H.
  - vm_compute in H. discriminate H.
Qed.

Lemma snapshots_after_last_segment (schedule : list Turn) (me : Miner) :
  Forall (fun d => d = mining_rigs me) (snapshots schedule [] me).
Proof.
  induction schedule as [|[|] schedule IH]; cbn [snapshots]; auto.
Qed.

(** Around a coroutine of one segment, a snapshot is taken before the
    segment or after it. *)
Lemma snapshots_one_segment (schedule : list Turn) (segment : Segment) (me : Miner) :
  Forall (fun d => d = mining_rigs me \/ d = mining_rigs (segment me))
    (snapshots schedule [segment] me).
Proof.
  induction schedule as [|[|] schedule IH]; cbn [snapshots]; auto.
  eapply Forall_impl; [|apply snapshots_after_last_segment]. auto.
Qed.

(** C4 (amended).  The refresh is atomic for readers and it is not a
    copy-and-swap.  [load_rigs_from_chain] holds no [await], so under
    every schedule of the event loop a reader's snapshot of [mining_rigs]
    is the complete old content or the complete new one.  With an oracle
    address configured for the chain, the method assigns the two rigs of
    the chain into the published dictionary in place, one entry after the
    other: the dictionary goes through the old content [d0], then [d0]
    with rig 1 assigned under its key, then that with rig 2 assigned
    under its key, which is the new content.  Afterwards each refreshed
    key holds its rig and every other key holds what it held before: no
    entry is removed and no new dictionary is swapped in. *)
Theorem refresh_is_atomic_for_readers_and_in_place (me : Miner) (chain : string) :
  Py.truthy (Registry.oracle_address me chain) = true ->
  let k1 := Registry.rig_key chain Registry.mock_rig_1 in
  let k2 := Registry.rig_key chain Registry.mock_rig_2 in
  let d0 := mining_rigs me in
  let d1 := Py.set k1 Registry.mock_rig_1 d0 in
  let d2 := Py.set k2 Registry.mock_rig_2 d1 in
  let new := mining_rigs (fst (Registry.load_rigs_from_chain me chain)) in
  (forall schedule : list Turn,
      Forall (fun d => d = d0 \/ d = new)
        (snapshots schedule (refresh_segments chain) me))
  /\ Registry.refresh_states me chain = [d0; d1; d2]
  /\ new = d2
  /\ Py.get k1 new = Some Registry.mock_rig_1
  /\ Py.get k2 new = Some Registry.mock_rig_2
  /\ (forall k, k <> k1 -> k <> k2 -> Py.get k new = Py.get k d0)
  /\ (forall k, In k (Py.keys d0) -> In k (Py.keys new)).
Proof.
  intros Hcfg k1 k2 d0 d1 d2 new.
  assert (Hnew : new = d2).
  { unfold new, Registry.load_rigs_from_chain. now rewrite Hcfg. }
  split.
  { intros schedule.
    exact (snapshots_one_segment schedule
             (fun me => fst (Registry.load_rigs_from_chain me chain)) me). }
  repeat split.
  - unfold Registry.refresh_states. now rewrite Hcfg.
  - exact Hnew.
  - rewrite Hnew. unfold d2.
    rewrite get_set_other by apply mock_keys_differ.
    apply get_set_same.
  - rewrite Hnew. apply get_set_same.
  - intros k Hk1 Hk2. rewrite Hnew. unfold d2, d1.
    now rewrite !get_set_other.
  - intros k Hin. rewrite Hnew. unfold d2, d1.
    rewrite !keys_set.
    repeat match goal with
           | |- context [if ?b then _ else _] => destruct b
           end; auto using in_or_app.
Qed.

Lemma refresh_is_atomic_for_readers_and_in_place_witness :
  Py.truthy (Registry.oracle_address Fixture.fresh "altcoinchain") = true
  /\ snapshots [Read; Resume; Read] (refresh_segments "altcoinchain") Fixture.fresh
     = [ [];
         [ ("altcoinchain:0x742d35Cc6634C0532925a3b8D0C9e3e0C8b4c8e8:1",
            Registry.mock_rig_1);
           ("altcoinchain:0x123d35Cc6634C0532925a3b8D0C9e3e0C8b4c8e8:2",
            Registry.mock_rig_2) ] ]
  /\ Py.keys (mining_rigs
                (fst (Registry.load_rigs_from_chain Fixture.fresh "altcoinchain")))
     = [ "altcoinchain:0x742d35Cc6634C0532925a3b8D0C9e3e0C8b4c8e8:1";
         "altcoinchain:0x123d35Cc6634C0532925a3b8D0C9e3e0C8b4c8e8:2" ].
Proof.
  split; [reflexivity|]. split; [reflexivity|].
  destruct (refresh_is_atomic_for_readers_and_in_place Fixture.fresh "altcoinchain"
              eq_refl) as (_ & _ & Hnew & _).
  rewrite Hnew. reflexivity.
Defined.

(** ** Effects of the prover client and of the dispatcher *)

Lemma extends_refl (w : World) : extends w w [].
Proof. split; [now rewrite app_nil_r | reflexivity]. Qed.

Lemma extends_trans (w1 w2 w3 : World) (a b : list Effect) :
  extends w1 w2 a -> extends w2 w3 b -> extends w1 w3 (a ++ b).
Proof.
  intros [Ht1 Hs1] [Ht2 Hs2]. split.
  - now rewrite Ht2, Ht1, app_assoc.
  - congruence.
Qed.

Lemma skipn_length_app {A : Type} (l added : list A) :
  skipn (List.length l) (l ++ added) = added.
Proof. induction l; simpl; auto. Qed.

Lemma effects_of_extends {A : Type} (c : M A) (w : World) (added : list Effect) :
  extends w (snd (c w)) added -> effects_of c w = added.
Proof.
  intros [Ht _]. unfold effects_of. rewrite Ht. apply skipn_length_app.
Qed.

Lemma dispatch_effects_quiet (t : list Effect) :
  Forall dispatch_effect t ->
  broadcasts t = [] /\ dispatched t = t /\ sleeps t = []
  /\ connect_depths t = [] /\ submitted t = [].
Proof.
  induction 1 as [|e t He _ IH]; [now repeat split|].
  destruct IH as (Hb & He' & Hs & Hc & Hsub).
  unfold broadcasts, dispatched, sleeps, connect_depths, submitted in *.
  simpl. rewrite Hb, He', Hs, Hc, Hsub.
  destruct e as [[]| | | | |]; simpl in He; try contradiction; now repeat split.
Qed.

Lemma int_of_float_finite (x : Py.float) :
  Py.is_finite x = true -> exists z, Py.int_of_float x = inr z.
Proof. destruct x; simpl; intros H; try discriminate; eauto. Qed.

Lemma generate_spec (env : Env) (rig : MiningRig) (h : Z) (w : World) :
  exists o w' added,
    generate_cysic_proof_for_rig env rig h w = (inr o, w')
    /\ extends w w' added
    /\ Forall dispatch_effect added
    /\ total_rewards (self w') = total_rewards (self w)
    /\ proofs_generated (self w')
       = proofs_generated (self w) + Z.of_nat (List.length (successes [@inr Py.Exn _ o]))
    /\ (Py.is_finite (time env (S (tick w))) = true ->
        prove_calls added = [(rig_id rig, h)]).
Proof.
  unfold generate_cysic_proof_for_rig, prepare_public_inputs,
    requests_post_prove, fromhex_item.
  run_monad. split_cases.
  all: do 3 eexists; split; [reflexivity|].
  all: split; [split; [cbn [trace]; rewrite <- ?app_assoc; reflexivity | reflexivity]|].
  all: split; [repeat constructor|].
  all: split; [reflexivity|].
  all: split; [simpl; lia|].
  all: intros Hfin; try reflexivity.
  all: apply int_of_float_finite in Hfin; destruct Hfin; congruence.
Qed.

Lemma prove_calls_app (a b : list Effect) :
  prove_calls (a ++ b) = prove_calls a ++ prove_calls b.
Proof. apply flat_map_app. Qed.

Lemma active_rigs_setup (m m' : Miner) :
  setup m' = setup m -> Registry.active_rigs m' = Registry.active_rigs m.
Proof.
  unfold setup, Registry.active_rigs. intros H.
  injection H as _ Hrigs _ _ _ _ _ _. now rewrite Hrigs.
Qed.

Lemma gather_tasks_spec (env : Env) (h : Z) (active : list MiningRig) :
  forall w : World,
  exists rs w' added,
    gather (tasks_for env active h) w = (inr rs, w')
    /\ extends w w' added
    /\ Forall dispatch_effect added
    /\ total_rewards (self w') = total_rewards (self w)
    /\ List.length rs = List.length active
    /\ Forall (fun r => exists o, r = inr o) rs
    /\ proofs_generated (self w')
       = proofs_generated (self w) + Z.of_nat (List.length (successes rs))
    /\ (finite_clock env -> prove_calls added = calls_at active h).
Proof.
  induction active as [|rig active IH]; intros w.
  - exists [], w, []. simpl. unfold ret.
    repeat split; auto using app_nil_r; lia.
  - destruct (generate_spec env rig h w)
      as (o & w1 & a1 & Hrun & Hext1 & Heff1 & Hrew1 & Hgen1 & Hcalls1).
    destruct (IH w1)
      as (rs & w2 & a2 & Hrest & Hext2 & Heff2 & Hrew2 & Hlen & Hval & Hgen2 & Hcalls2).
    exists (inr o :: rs), w2, (a1 ++ a2).
    simpl. rewrite Hrun, Hrest.
    split; [reflexivity|].
    split; [eapply extends_trans; eauto|].
    split; [apply Forall_app; auto|].
    split; [congruence|].
    split; [simpl; congruence|].
    split; [constructor; eauto|].
    split.
    + rewrite Hgen2, Hgen1. unfold successes. simpl.
      rewrite length_app, Nat2Z.inj_add. destruct o; simpl; lia.
    + intros Hfin. rewrite prove_calls_app, Hcalls1, Hcalls2 by auto.
      reflexivity.
Qed.

Lemma fan_out_spec (env : Env) (h : Z) (w : World) :
  exists rs w' added,
    fan_out env h w = (inr rs, w')
    /\ extends w w' added
    /\ Forall dispatch_effect added
    /\ total_rewards (self w') = total_rewards (self w)
    /\ List.length rs = List.length (Registry.active_rigs (self w))
    /\ Forall (fun r => exists o, r = inr o) rs
    /\ proofs_generated (self w')
       = proofs_generated (self w) + Z.of_nat (List.length (successes rs))
    /\ (finite_clock env ->
        prove_calls added = calls_at (Registry.active_rigs (self w)) h).
Proof.
  unfold fan_out. run_monad.
  apply gather_tasks_spec.
Qed.

Lemma trigger_spec (env : Env) (h : Z) (w : World) :
  exists w' added,
    trigger_proof_generation env h w = (inr tt, w')
    /\ extends w w' added
    /\ Forall dispatch_effect added
    /\ total_rewards (self w') = total_rewards (self w)
    /\ proofs_generated (self w) <= proofs_generated (self w')
    /\ (finite_clock env ->
        prove_calls added = calls_at (Registry.active_rigs (self w)) h).
Proof.
  unfold trigger_proof_generation. run_monad.
  destruct (Registry.active_rigs (self w)) eqn:Hactive.
  - exists w, []. repeat split; auto using app_nil_r; lia.
  - destruct (fan_out_spec env h w)
      as (rs & w' & added & Hrun & Hext & Heff & Hrew & _ & _ & Hgen & Hcalls).
    rewrite Hrun. exists w', added.
    rewrite Hactive in Hcalls.
    repeat split; auto; try apply Hext. lia.
Qed.

Lemma run_triggers_spec (env : Env) (heights : list Z) :
  forall w : World,
  exists w' added,
    run_triggers env heights w = (inr tt, w')
    /\ extends w w' added
    /\ Forall dispatch_effect added
    /\ total_rewards (self w') = total_rewards (self w)
    /\ (finite_clock env ->
        prove_calls added
        = flat_map (calls_at (Registry.active_rigs (self w))) heights).
Proof.
  induction heights as [|h heights IH]; intros w; simpl.
  - exists w, []. unfold ret. repeat split; auto using app_nil_r.
  - destruct (trigger_spec env h w)
      as (w1 & a1 & Hrun & Hext1 & Heff1 & Hrew1 & _ & Hcalls1).
    destruct (IH w1) as (w2 & a2 & Hrest & Hext2 & Heff2 & Hrew2 & Hcalls2).
    exists w2, (a1 ++ a2). unfold bind. rewrite Hrun, Hrest.
    split; [reflexivity|].
    split; [eapply extends_trans; eauto|].
    split; [apply Forall_app; auto|].
    split; [congruence|].
    intros Hfin. rewrite prove_calls_app, Hcalls1, Hcalls2 by auto.
    now rewrite (active_rigs_setup (self w) (self w1)) by apply Hext1.
Qed.

Lemma fixture_clock_finite : finite_clock Fixture.env_ok.
Proof. intros n. reflexivity. Qed.

(** ** Dispatcher: deduplication (C1) *)

(** C1 (counterexample).  With the two rigs of Altcoinchain registered,
    two Triggers at height 100 make the dispatcher call the prover twice
    for rig 1 at height 100. *)
Lemma replayed_trigger_calls_prover_again : ~ Spec.dispatch_at_most_once.
Proof.
  intros H.
  specialize (H Fixture.env_ok Fixture.world [100; 100] 1 100).
  assert (Hsorted : Sorted Z.le [100; 100]).
  { repeat constructor. discriminate. }
  specialize (H Hsorted).
  vm_compute in H. lia.
Qed.

(** C1 (amended).  The dispatcher keeps no record of the heights it has
    served: over any sequence of Triggers, each call of
    [trigger_proof_generation] issues exactly one prover call per active
    registry entry, in registry order, at the Trigger's height; a height
    that arrives [k] times therefore causes [k] calls per active entry. *)
Theorem dispatch_calls_each_active_rig_per_trigger
    (env : Env) (w : World) (heights : list Z) :
  finite_clock env ->
  prove_calls (effects_of (run_triggers env heights) w)
  = flat_map (fun h => map (fun rig => (rig_id rig, h))
                           (Registry.active_rigs (self w))) heights.
Proof.
  intros Hfin.
  destruct (run_triggers_spec env heights w) as (w' & added & Hrun & Hext & _ & _ & Hcalls).
  rewrite (effects_of_extends _ w added) by (rewrite Hrun; exact Hext).
  now apply Hcalls.
Qed.

Lemma dispatch_calls_each_active_rig_per_trigger_witness :
  finite_clock Fixture.env_ok
  /\ prove_calls (effects_of (run_triggers Fixture.env_ok [100; 100]) Fixture.world)
     = [(1, 100); (2, 100); (1, 100); (2, 100)].
Proof.
  split; [exact fixture_clock_finite|].
  rewrite (dispatch_calls_each_active_rig_per_trigger
             Fixture.env_ok Fixture.world [100; 100] fixture_clock_finite).
  reflexivity.
Defined.

(** ** Dispatcher: forwarding of successes (C5) *)

(** C5 (counterexample).  When the prover answers every request, a
    Trigger at height 100 generates two proofs and posts no transaction
    to nuChain. *)
Lemma generated_proofs_are_not_submitted : ~ Spec.successes_forwarded.
Proof.
  intros H.
  specialize (H Fixture.env_ok Fixture.world 100).
  vm_compute in H. apply H. reflexivity.
Qed.

(** C5 (amended).  For every Trigger fan-out, each proof whose prover call
    succeeds is counted in [proofs_generated] and returned in the gathered
    result list; [trigger_proof_generation] then returns without using
    that list: the fan-out posts nothing to nuChain and leaves
    [total_rewards] as it was. *)
Theorem fan_out_counts_successes_and_submits_nothing
    (env : Env) (w : World) (h : Z) :
  (exists results w',
      fan_out env h w = (inr results, w')
      /\ proofs_generated (self w')
         = proofs_generated (self w) + Z.of_nat (List.length (successes results))
      /\ broadcasts (effects_of (fan_out env h) w) = []
      /\ total_rewards (self w') = total_rewards (self w))
  /\ fst (trigger_proof_generation env h w) = inr tt
  /\ broadcasts (effects_of (trigger_proof_generation env h) w) = []
  /\ total_rewards (self (snd (trigger_proof_generation env h w)))
     = total_rewards (self w).
Proof.
  split.
  - destruct (fan_out_spec env h w)
      as (rs & w' & added & Hrun & Hext & Heff & Hrew & _ & _ & Hgen & _).
    exists rs, w'. repeat split; auto.
    rewrite (effects_of_extends _ w added) by (rewrite Hrun; exact Hext).
    now apply dispatch_effects_quiet.
  - destruct (trigger_spec env h w)
      as (w' & added & Hrun & Hext & Heff & Hrew & _).
    rewrite (effects_of_extends _ w added) by (rewrite Hrun; exact Hext).
    rewrite Hrun. repeat split; auto.
    now apply dispatch_effects_quiet.
Qed.

(** ** Dispatcher: isolation of failures (C7) *)

(** C7.  Within one Trigger's fan-out, whatever the prover answers (error
    status, exception, unusable body), every active rig gets its prover
    call and every task yields an outcome in the gathered list: no
    exception leaves a task, the dispatch returns normally, and the next
    Trigger calls the prover for every active rig again, the rigs that
    failed included. *)
Theorem fan_out_isolates_failures (env : Env) (w : World) (h : Z) :
  finite_clock env ->
  exists results w',
    fan_out env h w = (inr results, w')
    /\ List.length results = List.length (Registry.active_rigs (self w))
    /\ Forall (fun r => exists outcome, r = inr outcome) results
    /\ prove_calls (effects_of (fan_out env h) w)
       = map (fun rig => (rig_id rig, h)) (Registry.active_rigs (self w))
    /\ fst (trigger_proof_generation env h w) = inr tt
    /\ forall h',
         prove_calls (effects_of (trigger_proof_generation env h')
                        (snd (trigger_proof_generation env h w)))
         = map (fun rig => (rig_id rig, h')) (Registry.active_rigs (self w)).
Proof.
  intros Hfin.
  destruct (fan_out_spec env h w)
    as (rs & w' & added & Hrun & Hext & _ & _ & Hlen & Hval & _ & Hcalls).
  exists rs, w'.
  split; [exact Hrun|].
  split; [exact Hlen|].
  split; [exact Hval|].
  split.
  { rewrite (effects_of_extends _ w added) by (rewrite Hrun; exact Hext).
    now apply Hcalls. }
  destruct (trigger_spec env h w) as (w1 & a1 & Hrun1 & Hext1 & _).
  rewrite Hrun1. split; [reflexivity|].
  intros h'. cbn [snd].
  destruct (trigger_spec env h' w1) as (w2 & a2 & Hrun2 & Hext2 & _ & _ & _ & Hcalls2).
  rewrite (effects_of_extends _ w1 a2) by (rewrite Hrun2; exact Hext2).
  rewrite Hcalls2 by exact Hfin.
  unfold calls_at.
  now rewrite (active_rigs_setup (self w) (self w1)) by apply Hext1.
Qed.

Lemma fan_out_isolates_failures_witness :
  finite_clock Fixture.env_rig1_fails
  /\ exists results w',
       fan_out Fixture.env_rig1_fails 100 Fixture.world = (inr results, w')
       /\ List.length results = List.length (Registry.active_rigs (self Fixture.world))
       /\ Forall (fun r => exists outcome, r = inr outcome) results
       /\ prove_calls (effects_of (fan_out Fixture.env_rig1_fails 100) Fixture.world)
          = map (fun rig => (rig_id rig, 100)) (Registry.active_rigs (self Fixture.world))
       /\ fst (trigger_proof_generation Fixture.env_rig1_fails 100 Fixture.world) = inr tt
       /\ forall h',
            prove_calls
              (effects_of (trigger_proof_generation Fixture.env_rig1_fails h')
                 (snd (trigger_proof_generation Fixture.env_rig1_fails 100 Fixture.world)))
            = map (fun rig => (rig_id rig, h')) (Registry.active_rigs (self Fixture.world)).
Proof.
  assert (Hfin : finite_clock Fixture.env_rig1_fails) by (intros n; reflexivity).
  split; [exact Hfin|].
  exact (fan_out_isolates_failures Fixture.env_rig1_fails Fixture.world 100 Hfin).
Defined.

(** The scenario of the specification: the prover fails for rig 1 and
    succeeds for rig 2 at height 100; one proof is counted, and the
    Trigger 101 calls the prover for rig 1 again. *)
Example partial_failure_scenario :
  let (results, after) := fan_out Fixture.env_rig1_fails 100 Fixture.world in
  match results with
  | inr [inr None; inr (Some _)] => True
  | _ => False
  end
  /\ proofs_generated (self after) = 1
  /\ prove_calls (effects_of (run_triggers Fixture.env_rig1_fails [100; 101])
                    Fixture.world)
     = [(1, 100); (2, 100); (1, 101); (2, 101)].
Proof. vm_compute. auto. Qed.

(** ** Submission to nuChain (C3) *)

Lemma submit_spec (env : Env) (rig : MiningRig) (proof : CysicProof) (h : Z)
    (w : World) :
  exists w' added,
    submit_to_nuchain env rig proof h w = (inr tt, w')
    /\ extends w w' added
    /\ proofs_generated (self w') = proofs_generated (self w)
    /\ (List.length (broadcasts added) <= 1)%nat
    /\ total_rewards (self w')
       = total_rewards (self w) + Z.of_nat (List.length (submitted added)).
Proof.
  unfold submit_to_nuchain, encode_mining_payload, requests_post_broadcast,
    result_hash.
  run_monad. split_cases.
  all: do 2 eexists; split; [reflexivity|].
  all: split; [split; [cbn [trace]; rewrite <- ?app_assoc; reflexivity | reflexivity]|].
  all: split; [reflexivity|].
  all: split; [simpl; lia|].
  all: simpl; lia.
Qed.

(** With a configured relayer and a finite clock, the one request of
    [submit_to_nuchain] is the third interaction of the call, and what
    the call reports follows from the answer to it. *)
Lemma submit_run (env : Env) (w : World) (rig : MiningRig) (proof : CysicProof)
    (h : Z) (creator : string) :
  finite_clock env ->
  cfg_relayer_address (config (self w)) = Some creator ->
  exists tx added w',
    submit_to_nuchain env rig proof h w = (inr tt, w')
    /\ extends w w' added
    /\ broadcasts added = [tx]
    /\ let answer := post_broadcast env (2 + tick w)
                       (nuchain_rpc (self w) +++ "/broadcast_tx_commit") tx in
       (forall response hash,
           answer = Some response ->
           bc_status response = 200 ->
           bc_json response
           = Some (Some {| tx_code := Some 0; tx_hash := Some hash |}) ->
           submitted added = [hash]
           /\ total_rewards (self w') = total_rewards (self w) + 1)
       /\ (answer = None ->
           submission_failures added = [MsgSubmissionError Py.RequestException]
           /\ submitted added = []
           /\ total_rewards (self w') = total_rewards (self w))
       /\ (forall response result,
           answer = Some response ->
           bc_status response = 200 ->
           bc_json response = Some result ->
           code_is_zero result = false ->
           submission_failures added = [MsgSubmissionFailed result]
           /\ submitted added = []
           /\ total_rewards (self w') = total_rewards (self w)).
Proof.
  intros Hfin Hrel.
  destruct (int_of_float_finite _ (Hfin (tick w))) as [t1 Ht1].
  destruct (int_of_float_finite _ (Hfin (S (tick w)))) as [t2 Ht2].
  unfold submit_to_nuchain, encode_mining_payload, requests_post_broadcast,
    result_hash.
  run_monad. rewrite Hrel. run_monad. rewrite Ht1. run_monad.
  rewrite Ht2. run_monad.
  match goal with
  | |- context [post_broadcast env _ _ ?tx] => set (the_tx := tx)
  end.
  exists the_tx.
  split_cases.
  all: do 2 eexists; split; [reflexivity|].
  all: split; [split; [cbn [trace]; rewrite <- ?app_assoc; reflexivity | reflexivity]|].
  all: split; [reflexivity|].
  all: cbn zeta; change (2 + tick w)%nat with (S (S (tick w))).
  all: repeat split; intros.
  all: repeat match goal with
         | H : (_ =? _) = true |- _ => apply Z.eqb_eq in H
         | H : (_ =? _) = false |- _ => apply Z.eqb_neq in H
         end.
  all: unify_answers.
  all: simpl in *; try congruence; try lia.
Qed.

(** C3 (counterexample).  The ledger is unreachable for the first request
    and would accept any later one; [submit_to_nuchain] posts once and
    stops. *)
Lemma failed_submission_is_not_retried : ~ Spec.submission_retried.
Proof.
  intros H.
  specialize (H Fixture.env_flaky Fixture.world Registry.mock_rig_1 Fixture.proof
                100 "nu1relayer000000000000000000000000000000000" Fixture.accepted).
  assert (Hfin : finite_clock Fixture.env_flaky) by (intros n; reflexivity).
  assert (Hlater : forall (n : nat) (url tx : string),
             (2 + tick Fixture.world < n)%nat ->
             post_broadcast Fixture.env_flaky n url tx = Some Fixture.accepted).
  { intros n url tx Hn. simpl in *.
    destruct (Nat.leb_spec n 2); [lia | reflexivity]. }
  specialize (H Hfin eq_refl (fun _ _ => eq_refl) Hlater).
  vm_compute in H. lia.
Qed.

(** C3 (amended).  For every proof passed to [submit_to_nuchain] at most
    one submission request is made, and exactly one when a relayer address
    is configured: there is no retry, backoff, attempt cap or submission
    record.  When the ledger answers HTTP 200 with code 0, the returned
    transaction hash is reported and [total_rewards] grows by one; when
    the request raises, or the ledger answers HTTP 200 with another code,
    the failure is printed and [total_rewards] is unchanged.  The call
    never raises. *)
Theorem submission_is_attempted_once (env : Env) (w : World) (rig : MiningRig)
    (proof : CysicProof) (h : Z) :
  let run := submit_to_nuchain env rig proof h in
  let added := effects_of run w in
  let after := self (snd (run w)) in
  fst (run w) = inr tt
  /\ (List.length (broadcasts added) <= 1)%nat
  /\ total_rewards after
     = total_rewards (self w) + Z.of_nat (List.length (submitted added))
  /\ forall creator,
       finite_clock env ->
       cfg_relayer_address (config (self w)) = Some creator ->
       exists tx,
         broadcasts added = [tx]
         /\ let answer := post_broadcast env (2 + tick w)
                            (nuchain_rpc (self w) +++ "/broadcast_tx_commit") tx in
            (forall response hash,
                answer = Some response ->
                bc_status response = 200 ->
                bc_json response
                = Some (Some {| tx_code := Some 0; tx_hash := Some hash |}) ->
                submitted added = [hash]
                /\ total_rewards after = total_rewards (self w) + 1)
            /\ (answer = None ->
                submission_failures added = [MsgSubmissionError Py.RequestException]
                /\ submitted added = []
                /\ total_rewards after = total_rewards (self w))
            /\ (forall response result,
                answer = Some response ->
                bc_status response = 200 ->
                bc_json response = Some result ->
                code_is_zero result = false ->
                submission_failures added = [MsgSubmissionFailed result]
                /\ submitted added = []
                /\ total_rewards after = total_rewards (self w)).
Proof.
  intros run added after.
  destruct (submit_spec env rig proof h w)
    as (w0 & a0 & Hrun0 & Hext0 & _ & Hmost & Hrewards).
  assert (Hadded0 : added = a0).
  { unfold added, run. apply effects_of_extends. rewrite Hrun0. exact Hext0. }
  unfold after, run. rewrite Hadded0, Hrun0. cbn [fst snd].
  split; [reflexivity|].
  split; [exact Hmost|].
  split; [exact Hrewards|].
  intros creator Hfin Hrel.
  destruct (submit_run env w rig proof h creator Hfin Hrel)
    as (tx & a & w' & Hrun & Hext & Hposts & Hcases).
  rewrite Hrun in Hrun0. injection Hrun0 as <-.
  assert (a0 = a) as ->.
  { destruct Hext0 as [Ht0 _], Hext as [Ht _]. rewrite Ht in Ht0.
    now apply app_inv_head in Ht0. }
  exists tx. split; [exact Hposts | exact Hcases].
Qed.

Lemma submission_is_attempted_once_witness :
  finite_clock Fixture.env_flaky
  /\ cfg_relayer_address (config (self Fixture.world))
     = Some "nu1relayer000000000000000000000000000000000"
  /\ exists tx,
       broadcasts
         (effects_of (submit_to_nuchain Fixture.env_flaky Registry.mock_rig_1
                        Fixture.proof 100) Fixture.world) = [tx].
Proof.
  assert (Hfin : finite_clock Fixture.env_flaky) by (intros n; reflexivity).
  split; [exact Hfin|]. split; [reflexivity|].
  destruct (submission_is_attempted_once Fixture.env_flaky Fixture.world
              Registry.mock_rig_1 Fixture.proof 100)
    as (_ & _ & _ & Hone).
  destruct (Hone _ Hfin eq_refl) as (tx & Hposts & _).
  exists tx. exact Hposts.
Defined.

(** ** The dispatcher does not read the trace *)

Section Blind.

Context {A B : Type}.

Lemma blind_ret (a : A) : trace_blind (ret a).
Proof. intros pre w. reflexivity. Qed.

Lemma blind_raise (e : Py.Exn) : trace_blind (@raise A e).
Proof. intros pre w. reflexivity. Qed.

Lemma blind_lift (r : Py.Exn + A) : trace_blind (lift r).
Proof. intros pre w. reflexivity. Qed.

Lemma blind_item (key : string) (o : option A) : trace_blind (item key o).
Proof. destruct o; intros pre w; reflexivity. Qed.

Lemma blind_response_json (o : option A) : trace_blind (response_json o).
Proof. destruct o; intros pre w; reflexivity. Qed.

Lemma blind_bind (c : M A) (k : A -> M B) :
  trace_blind c -> (forall a, trace_blind (k a)) -> trace_blind (bind c k).
Proof.
  intros Hc Hk pre w. unfold bind. rewrite Hc.
  destruct (c w) as [[e|a] w1]; cbn [fst snd]; [reflexivity | apply Hk].
Qed.

Lemma blind_try (body : M A) (handler : Py.Exn -> M A) :
  trace_blind body -> (forall e, trace_blind (handler e)) ->
  trace_blind (try_except body handler).
Proof.
  intros Hb Hh pre w. unfold try_except. rewrite Hb.
  destruct (body w) as [[e|a] w1]; cbn [fst snd]; [apply Hh | reflexivity].
Qed.

End Blind.

Lemma blind_get_self : trace_blind get_self.
Proof. intros pre w. reflexivity. Qed.

Lemma blind_update_self (f : Miner -> Miner) : trace_blind (update_self f).
Proof. intros pre w. reflexivity. Qed.

Lemma blind_emit (e : Effect) : trace_blind (emit e).
Proof.
  intros pre w. unfold emit, rebase. cbn [self tick trace fst snd].
  now rewrite app_assoc.
Qed.

Lemma blind_time_time (env : Env) : trace_blind (time_time env).
Proof. intros pre w. reflexivity. Qed.

Lemma blind_post_prove (env : Env) (url : string) (req : ProofRequest) :
  trace_blind (requests_post_prove env url req).
Proof.
  unfold requests_post_prove. apply blind_bind; [apply blind_emit|].
  intros _ pre w. cbn [rebase tick].
  destruct (post_prove env (tick w) url req); reflexivity.
Qed.

Lemma blind_gather {A : Type} (tasks : list (M A)) :
  Forall trace_blind tasks -> trace_blind (gather tasks).
Proof.
  induction 1 as [|task tasks Htask _ IH]; [apply blind_ret|].
  intros pre w. cbn [gather]. rewrite Htask.
  destruct (task w) as [r w1]. cbn [fst snd]. rewrite IH.
  destruct (gather tasks w1) as [[e|rs] w2]; reflexivity.
Qed.

Ltac blind_step :=
  first
    [ apply blind_ret | apply blind_raise | apply blind_lift | apply blind_item
    | apply blind_response_json | apply blind_get_self | apply blind_update_self
    | apply blind_emit | apply blind_time_time | apply blind_post_prove
    | apply blind_bind; [|intros ?] | apply blind_try; [|intros ?]
    | match goal with
      | |- trace_blind (if ?b then _ else _) => destruct b
      | |- trace_blind (match ?x with _ => _ end) => destruct x
      end ].

Lemma blind_generate (env : Env) (rig : MiningRig) (h : Z) :
  trace_blind (generate_cysic_proof_for_rig env rig h).
Proof.
  unfold generate_cysic_proof_for_rig, prepare_public_inputs, fromhex_item, print.
  repeat blind_step.
Qed.

Lemma blind_trigger (env : Env) (h : Z) :
  trace_blind (trigger_proof_generation env h).
Proof.
  unfold trigger_proof_generation, fan_out.
  repeat blind_step.
  apply blind_gather. unfold tasks_for. apply Forall_map, Forall_forall.
  intros rig _. apply blind_generate.
Qed.

Lemma blind_same_state {A : Type} (c : M A) (w w0 : World) :
  trace_blind c -> self w = self w0 -> tick w = tick w0 ->
  exists r w' w0' added,
    c w = (r, w') /\ c w0 = (r, w0')
    /\ trace w' = trace w ++ added /\ trace w0' = trace w0 ++ added
    /\ self w' = self w0' /\ tick w' = tick w0'.
Proof.
  intros Hc Hself Htick.
  set (core := {| self := self w; tick := tick w; trace := [] |}).
  assert (Hw : w = rebase (trace w) core).
  { destruct w. unfold rebase, core. cbn. now rewrite app_nil_r. }
  assert (Hw0 : w0 = rebase (trace w0) core).
  { destruct w0. unfold rebase, core. cbn in *. subst. now rewrite app_nil_r. }
  exists (fst (c core)), (rebase (trace w) (snd (c core))),
    (rebase (trace w0) (snd (c core))), (trace (snd (c core))).
  split; [rewrite Hw at 1; apply Hc|].
  split; [rewrite Hw0 at 1; apply Hc|].
  repeat split.
Qed.

(** ** Block monitor (C2, C6) *)

Lemma dispatched_app (a b : list Effect) :
  dispatched (a ++ b) = dispatched a ++ dispatched b.
Proof. apply filter_app. Qed.

Lemma prove_calls_dispatched (t : list Effect) :
  prove_calls (dispatched t) = prove_calls t.
Proof.
  unfold prove_calls, dispatched.
  induction t as [|e t IH]; [reflexivity|].
  destruct e as [[]| | | | |]; cbn; now rewrite IH.
Qed.

Lemma broadcasts_dispatched (t : list Effect) :
  broadcasts (dispatched t) = broadcasts t.
Proof.
  unfold broadcasts, dispatched.
  induction t as [|e t IH]; [reflexivity|].
  destruct e as [[]| | | | |]; cbn; now rewrite IH.
Qed.

Lemma trigger_pair (env : Env) (h : Z) (w w0 : World) :
  self w = self w0 -> tick w = tick w0 ->
  exists w' w0' added,
    trigger_proof_generation env h w = (inr tt, w')
    /\ trigger_proof_generation env h w0 = (inr tt, w0')
    /\ extends w w' added
    /\ trace w0' = trace w0 ++ added
    /\ Forall dispatch_effect added
    /\ self w' = self w0' /\ tick w' = tick w0'.
Proof.
  intros Hself Htick.
  destruct (blind_same_state _ w w0 (blind_trigger env h) Hself Htick)
    as (r & w' & w0' & added & Hrun & Hrun0 & Ht & Ht0 & Hs & Hk).
  destruct (trigger_spec env h w) as (w1 & a1 & Hrun1 & Hext & Heff & _).
  rewrite Hrun in Hrun1. injection Hrun1 as -> <-.
  assert (a1 = added) as ->.
  { destruct Hext as [Ht1 _]. rewrite Ht in Ht1. now apply app_inv_head in Ht1. }
  exists w', w0', added. repeat split; auto; apply Hext.
Qed.

Lemma run_triggers_app (env : Env) (a b : list Z) (w : World) :
  run_triggers env (a ++ b) w
  = (run_triggers env a ;;; run_triggers env b) w.
Proof.
  revert w. induction a as [|h a IH]; intros w; [reflexivity|].
  cbn [app run_triggers]. unfold bind in *.
  destruct (trigger_proof_generation env h w) as [[e|[]] w1]; [reflexivity|].
  apply IH.
Qed.

Lemma handle_frames_spec (env : Env) (stack : Stack) (depth : nat)
    (frames : list Frame) :
  forall w w0 : World,
  self w = self w0 -> tick w = tick w0 ->
  exists r w' w0' added,
    handle_frames env stack depth frames w = (r, w')
    /\ run_triggers env (frame_heights (dispatching stack depth) frames) w0
       = (inr tt, w0')
    /\ extends w w' added
    /\ trace w0' = trace w0 ++ dispatched added
    /\ self w' = self w0' /\ tick w' = tick w0'
    /\ sleeps added = []
    /\ connect_depths added = []
    /\ (if frames_raise (dispatching stack depth) frames
        then exists e, r = inl e else r = inr tt).
Proof.
  induction frames as [|[h| |e] frames IH]; intros w w0 Hself Htick;
    cbn [handle_frames frame_heights frames_raise].
  - exists (inr tt), w, w0, []. unfold ret. cbn [run_triggers dispatched filter].
    rewrite !app_nil_r. repeat split; auto using app_nil_r.
  - unfold call_at_depth.
    change (depth <? dispatch_limit stack)%nat with (dispatching stack depth).
    destruct (dispatching stack depth) eqn:Hfits.
    + destruct (trigger_pair env h
                  {| self := self w; tick := tick w;
                     trace := trace w ++ [Print (MsgNewBlock h)] |} w0 Hself Htick)
        as (w1 & w01 & a1 & Hrun & Hrun0 & Hext1 & Ht01 & Heff1 & Hs1 & Hk1).
      destruct (IH w1 w01 Hs1 Hk1)
        as (r & w2 & w02 & a2 & Hrest & Hrest0 & Hext2 & Ht02 & Hs2 & Hk2
            & Hsleep & Hconn & Hres).
      destruct (dispatch_effects_quiet a1 Heff1) as (_ & Hd1 & Hsl1 & Hc1 & _).
      exists r, w2, w02, ([Print (MsgNewBlock h)] ++ a1 ++ a2).
      cbn [run_triggers]. run_monad. rewrite Hrun, Hrun0, Hrest, Hrest0.
      split; [reflexivity|]. split; [reflexivity|].
      split.
      { eapply (extends_trans w _ w2); [|eapply extends_trans; eauto].
        split; reflexivity. }
      split.
      { rewrite Ht02, Ht01, !dispatched_app, Hd1. cbn. now rewrite app_assoc. }
      unfold sleeps, connect_depths in *.
      rewrite !flat_map_app, Hsl1, Hc1, Hsleep, Hconn.
      repeat split; auto.
    + exists (inl Py.RecursionError),
        {| self := self w; tick := tick w;
           trace := trace w ++ [Print (MsgNewBlock h)] |}, w0,
        [Print (MsgNewBlock h)].
      run_monad. cbn [run_triggers]. unfold ret.
      split; [reflexivity|]. split; [reflexivity|].
      split; [split; reflexivity|].
      cbn. rewrite app_nil_r. repeat split; eauto.
  - apply IH; assumption.
  - exists (inl e), w, w0, []. unfold raise, ret. cbn [run_triggers dispatched filter].
    rewrite !app_nil_r. repeat split; eauto using app_nil_r.
Qed.

Lemma run_session_spec (env : Env) (stack : Stack) (s : Session) (depth : nat)
    (w w0 : World) :
  self w = self w0 -> tick w = tick w0 ->
  exists r w' w0' added,
    run_session env stack s depth w = (r, w')
    /\ run_triggers env (session_heights (dispatching stack depth) s) w0
       = (inr tt, w0')
    /\ extends w w' added
    /\ trace w0' = trace w0 ++ dispatched added
    /\ self w' = self w0' /\ tick w' = tick w0'
    /\ sleeps added = []
    /\ connect_depths added = [depth]
    /\ (if session_raises (dispatching stack depth) s
        then exists e, r = inl e else r = inr tt).
Proof.
  intros Hself Htick. unfold run_session. run_monad.
  destruct s as [e|frames ending]; cbn [session_heights session_raises].
  - exists (inl e),
      {| self := self w; tick := tick w;
         trace := trace w
                  ++ [Connect (http_to_ws (nuchain_rpc (self w)) +++ "/websocket") depth] |},
      w0, [Connect (http_to_ws (nuchain_rpc (self w)) +++ "/websocket") depth].
    cbn [run_triggers]. unfold ret.
    split; [reflexivity|]. split; [reflexivity|].
    split; [split; reflexivity|].
    cbn. rewrite app_nil_r. repeat split; eauto.
  - match goal with
    | |- context [handle_frames env stack depth frames ?w1] =>
        destruct (handle_frames_spec env stack depth frames w1 w0 Hself Htick)
          as (r & w' & w0' & a1 & Hrun & Hrun0 & Hext & Ht0 & Hs & Hk
              & Hsleep & Hconn & Hres)
    end.
    rewrite Hrun.
    exists (match r with
            | inl e => inl e
            | inr _ => match ending with Closed => inr tt | Failed e => inl e end
            end), w', w0',
      ([Connect (http_to_ws (nuchain_rpc (self w)) +++ "/websocket") depth;
        Send (Json.dumps false subscription); Print MsgMonitoring] ++ a1).
    split; [destruct r as [x|[]]; [|destruct ending]; reflexivity|].
    split; [exact Hrun0|].
    split.
    { eapply (extends_trans w _ w'); [|exact Hext].
      split; [cbn [trace]; rewrite <- ?app_assoc; reflexivity | reflexivity]. }
    split; [rewrite Ht0, dispatched_app; reflexivity|].
    unfold sleeps, connect_depths in *.
    rewrite !flat_map_app, Hsleep, Hconn.
    repeat split; auto.
    destruct (frames_raise (dispatching stack depth) frames).
    + destruct Hres as [x ->]. destruct ending; eauto.
    + subst r. destruct ending; eauto.
Qed.

Lemma monitor_spec (env : Env) (stack : Stack) (sessions : list Session) :
  forall (depth : nat) (w w0 : World),
  self w = self w0 -> tick w = tick w0 ->
  exists w' w0' added,
    monitor_nuchain_blocks env stack sessions depth w
    = (outcome stack depth sessions, w')
    /\ run_triggers env (triggered stack depth sessions) w0 = (inr tt, w0')
    /\ extends w w' added
    /\ trace w0' = trace w0 ++ dispatched added
    /\ self w' = self w0' /\ tick w' = tick w0'
    /\ sleeps added = repeat 5 (retries stack depth sessions)
    /\ connect_depths added = seq depth (List.length (reached stack depth sessions)).
Proof.
  induction sessions as [|s sessions IH]; intros depth w w0 Hself Htick;
    cbn [monitor_nuchain_blocks outcome triggered retries reached].
  - exists w, w0, []. unfold ret. cbn. rewrite !app_nil_r.
    repeat split; auto using app_nil_r.
  - destruct (run_session_spec env stack s depth w w0 Hself Htick)
      as (r & w1 & w01 & a1 & Hrun & Hrun0 & Hext1 & Ht01 & Hs1 & Hk1
          & Hsleep1 & Hconn1 & Hres).
    rewrite run_triggers_app. run_monad. rewrite Hrun, Hrun0.
    unfold retried, call_at_depth.
    destruct (session_raises (dispatching stack depth) s) eqn:Hraises;
      cbn [andb].
    + destruct Hres as [e ->].
      unfold sleeping. destruct (depth <? sleep_limit stack)%nat eqn:Hfits.
      * unfold emit. cbn [self tick trace].
        match goal with
        | |- context [monitor_nuchain_blocks env stack sessions (S depth) ?w2] =>
            destruct (IH (S depth) w2 w01 Hs1 Hk1)
              as (w3 & w03 & a2 & Hrest & Hrest0 & Hext2 & Ht03 & Hs3 & Hk3
                  & Hsleep2 & Hconn2)
        end.
        rewrite Hrest, Hrest0.
        exists w3, w03, (a1 ++ [Print (MsgMonitoringFailed e); Sleep 5] ++ a2).
        split; [reflexivity|]. split; [reflexivity|].
        split.
        { apply (extends_trans w w1 w3); [exact Hext1|].
          eapply extends_trans; [|exact Hext2].
          split; [cbn [trace]; rewrite <- ?app_assoc; reflexivity | reflexivity]. }
        split.
        { rewrite Ht03, Ht01, !dispatched_app. cbn. now rewrite app_assoc. }
        unfold sleeps, connect_depths in *.
        rewrite !flat_map_app, Hsleep1, Hconn1, Hsleep2, Hconn2.
        repeat split; auto.
      * exists {| self := self w1; tick := tick w1;
                  trace := trace w1 ++ [Print (MsgMonitoringFailed e)] |}, w01,
          (a1 ++ [Print (MsgMonitoringFailed e)]).
        cbn [run_triggers]. unfold ret, raise.
        split; [reflexivity|]. split; [reflexivity|].
        split.
        { apply (extends_trans w w1 _); [exact Hext1|]. split; reflexivity. }
        split.
        { rewrite Ht01, !dispatched_app. cbn. now rewrite ?app_nil_r. }
        unfold sleeps, connect_depths in *.
        rewrite !flat_map_app, Hsleep1, Hconn1.
        repeat split; auto.
    + subst r. exists w1, w01, a1.
      cbn [run_triggers]. unfold ret. rewrite ?app_nil_r.
      repeat split; auto; apply Hext1.
Qed.

(** C2 (counterexample).  A connection that delivers the block of height
    100 twice makes the monitor call the dispatcher twice at height 100:
    the prover is called twice for each rig at that height, which the
    dispatcher does for no strictly increasing sequence of Triggers. *)
Lemma replayed_height_is_emitted_again : ~ Spec.triggers_strictly_increase.
Proof.
  intros H.
  destruct (H Fixture.env_ok Fixture.stack
              [Connected [NewBlock 100; NewBlock 100] Closed] Fixture.world)
    as (heights & Hsorted & Hrun).
  apply (f_equal prove_calls) in Hrun.
  destruct (run_triggers_spec Fixture.env_ok heights Fixture.world)
    as (w' & added & Hruns & Hext & _ & _ & Hcalls).
  rewrite (effects_of_extends (run_triggers Fixture.env_ok heights) Fixture.world added)
    in Hrun by (rewrite Hruns; exact Hext).
  rewrite (Hcalls fixture_clock_finite) in Hrun.
  assert (Hreplay :
            prove_calls
              (dispatched
                 (effects_of
                    (monitor_nuchain_blocks Fixture.env_ok Fixture.stack
                       [Connected [NewBlock 100; NewBlock 100] Closed] 1)
                    Fixture.world))
            = [(1, 100); (2, 100); (1, 100); (2, 100)])
    by (vm_compute; reflexivity).
  rewrite Hreplay in Hrun.
  change (Registry.active_rigs (self Fixture.world))
    with [Registry.mock_rig_1; Registry.mock_rig_2] in Hrun.
  destruct heights as [|h1 [|h2 heights]]; cbn in Hrun; try discriminate Hrun.
  injection Hrun as Hh1 _ Hh2 _.
  inversion Hsorted as [|x l _ Hall]; subst.
  inversion Hall as [|y l' Hlt _]; subst.
  lia.
Qed.

(** C2 (amended).  The Event Monitor keeps no watermark: for every inbound
    block whose height parses it calls the dispatcher with that height,
    whatever heights it triggered before.  What a run of the monitor does
    to the prover and to the miner is what the dispatcher does when it is
    called once for each height of [triggered], in that order: the heights
    received, in arrival order, on every connection the monitor gets to
    (on each connection up to the first message on which parsing raises,
    and none in an invocation too deep to call the dispatcher).  So the
    heights triggered can repeat and decrease. *)
Theorem monitor_emits_every_received_height
    (env : Env) (stack : Stack) (sessions : list Session) (depth : nat) (w : World) :
  let run := monitor_nuchain_blocks env stack sessions depth in
  let heights := triggered stack depth sessions in
  dispatched (effects_of run w) = effects_of (run_triggers env heights) w
  /\ self (snd (run w)) = self (snd (run_triggers env heights w)).
Proof.
  intros run heights.
  destruct (monitor_spec env stack sessions depth w w eq_refl eq_refl)
    as (w' & w0' & added & Hrun & Hrun0 & Hext & Ht0 & Hself & _).
  fold run in Hrun. fold heights in Hrun0.
  rewrite (effects_of_extends _ w added) by (rewrite Hrun; exact Hext).
  rewrite Hrun, Hrun0. cbn [snd].
  split; [|exact Hself].
  unfold effects_of. rewrite Hrun0. cbn [snd]. rewrite Ht0.
  now rewrite skipn_length_app.
Qed.

Lemma constant_backoff (first count : nat) :
  map (fun n => Z.min (5 * 2 ^ Z.of_nat n) 5) (seq first count) = repeat 5 count.
Proof.
  revert first.
  induction count as [|count IH]; intros first; cbn [map seq repeat]; auto.
  rewrite IH. f_equal.
  assert (0 < 2 ^ Z.of_nat first) by (apply Z.pow_pos_nonneg; lia).
  apply Z.min_r. lia.
Qed.

(** A connection that fails every time: the run ends with
    [RecursionError], after a retry at every depth below [sleep_limit]. *)
Lemma persistent_failure (stack : Stack) (e : Py.Exn) :
  forall count depth : nat,
    (sleep_limit stack <= depth + count)%nat ->
    outcome stack depth (repeat (ConnectFails e) (S count)) = inl Py.RecursionError
    /\ retries stack depth (repeat (ConnectFails e) (S count))
       = (sleep_limit stack - depth)%nat
    /\ List.length (reached stack depth (repeat (ConnectFails e) (S count)))
       = S (sleep_limit stack - depth).
Proof.
  induction count as [|count IH]; intros depth Hle.
  - cbn [repeat outcome reached retries session_raises].
    unfold retried, sleeping. cbn [session_raises andb].
    destruct (Nat.ltb_spec depth (sleep_limit stack)) as [Hlt|Hge]; [lia|].
    split; [reflexivity|]. cbn [List.length]. lia.
  - change (repeat (ConnectFails e) (S (S count)))
      with (ConnectFails e :: repeat (ConnectFails e) (S count)).
    cbn [outcome reached retries session_raises].
    unfold retried, sleeping. cbn [session_raises andb].
    destruct (Nat.ltb_spec depth (sleep_limit stack)) as [Hlt|Hge].
    + destruct (IH (S depth)) as (Hout & Hretries & Hlen); [lia|].
      split; [exact Hout|].
      cbn [List.length]. rewrite Hretries, Hlen. lia.
    + split; [reflexivity|]. cbn [List.length]. lia.
Qed.

(** C6 (counterexample).  After one failed connection the next one is
    opened by a second, nested invocation of the monitor. *)
Lemma reconnect_is_a_nested_call : ~ Spec.reconnects_in_a_loop.
Proof.
  intros H.
  specialize (H Fixture.env_ok Fixture.stack
                [ConnectFails Py.ConnectionClosed; Connected [] Closed]
                Fixture.world).
  vm_compute in H.
  inversion H as [|x l _ Hrest]; subst.
  inversion Hrest as [|y l' Hdepth _]; subst.
  discriminate Hdepth.
Qed.

(** C6 (amended).  After an exception raised by the subscription the
    Event Monitor waits 5 seconds: the delay is [min (base * 2^n) cap]
    with [base = cap = 5], the same after every failure, with no failure
    counter to reset.  It then retries by calling itself from the
    exception handler: each retry opens its connection one invocation
    deeper than the previous one.  Nothing in the code bounds the
    recursion; the interpreter does: in the invocation at the depth
    [sleep_limit] the handler cannot sleep any more, [RecursionError]
    escapes from the outermost invocation and the monitor stops.  Under a
    persistently failing connection that happens after
    [max 1 sleep_limit] connection attempts and [sleep_limit - 1] sleeps. *)
Theorem monitor_waits_five_seconds_and_recurses
    (env : Env) (stack : Stack) (sessions : list Session) (depth : nat) (w : World) :
  let run := monitor_nuchain_blocks env stack sessions depth in
  let added := effects_of run w in
  let n := retries stack depth sessions in
  sleeps added = map (fun k => Z.min (5 * 2 ^ Z.of_nat k) 5) (seq 0 n)
  /\ sleeps added = repeat 5 n
  /\ connect_depths added = seq depth (List.length (reached stack depth sessions))
  /\ fst (run w) = outcome stack depth sessions
  /\ (forall (e : Py.Exn) (more : nat),
        let failing := repeat (ConnectFails e) (S (sleep_limit stack + more)) in
        fst (monitor_nuchain_blocks env stack failing 1 w) = inl Py.RecursionError
        /\ connect_depths (effects_of (monitor_nuchain_blocks env stack failing 1) w)
           = seq 1 (Nat.max 1 (sleep_limit stack))
        /\ sleeps (effects_of (monitor_nuchain_blocks env stack failing 1) w)
           = repeat 5 (sleep_limit stack - 1)).
Proof.
  intros run added n.
  destruct (monitor_spec env stack sessions depth w w eq_refl eq_refl)
    as (w' & w0' & a & Hrun & _ & Hext & _ & _ & _ & Hsleep & Hconn).
  unfold added, run.
  rewrite (effects_of_extends _ w a) by (rewrite Hrun; exact Hext).
  rewrite constant_backoff, Hrun.
  split; [exact Hsleep|]. split; [exact Hsleep|].
  split; [exact Hconn|]. split; [reflexivity|].
  intros e more.
  set (failing := repeat (ConnectFails e) (S (sleep_limit stack + more))).
  destruct (monitor_spec env stack failing 1 w w eq_refl eq_refl)
    as (w1 & w01 & a1 & Hrun1 & _ & Hext1 & _ & _ & _ & Hsleep1 & Hconn1).
  destruct (persistent_failure stack e (sleep_limit stack + more) 1)
    as (Hout & Hretries & Hlen); [lia|].
  fold failing in Hout, Hretries, Hlen.
  rewrite (effects_of_extends _ w a1) by (rewrite Hrun1; exact Hext1).
  rewrite Hrun1, Hconn1, Hsleep1, Hretries, Hlen. cbn [fst].
  split; [exact Hout|]. split; [f_equal; lia | reflexivity].
Qed.

(** ** Public-input digest (C8) *)

(** [hashlib.sha256] on the test vector "abc" of FIPS 180-4. *)
Example sha256_abc :
  Bytes.hex (Sha256.digest (Bytes.encode "abc"))
  = "ba7816bf8f01cfea414140de5dae2223b00361a396177a9cb410ff61f20015ad".
Proof. vm_compute. reflexivity. Qed.

(** The two-block test vector of FIPS 180-4. *)
Example sha256_two_blocks :
  Bytes.hex (Sha256.digest
               (Bytes.encode "abcdbcdecdefdefgefghfghighijhijkijkljklmklmnlmnomnopnopq"))
  = "248d6a61d20638b8e5c026930c3e6039a33ce45964ff2167f6ecedd419db06c1".
Proof. vm_compute. reflexivity. Qed.

(** The digest of rig 1 at height 100 and timestamp 1700000000, as
    CPython computes it. *)
Example public_input_digest_rig_1 :
  Bytes.hex (public_input_digest "nvidia-a100" Registry.mock_rig_1 100 1700000000)
  = "62212903147bc0fbd430deaca06ef370c42995a3bf89bb0d8984dbbafb070aac".
Proof. vm_compute. reflexivity. Qed.

(** The digest reads five attributes of the rig only. *)
Lemma public_input_digest_ext (hw : string) (rig1 rig2 : MiningRig) (h ts : Z) :
  rig_id rig1 = rig_id rig2 ->
  owner rig1 = owner rig2 ->
  components rig1 = components rig2 ->
  hash_power rig1 = hash_power rig2 ->
  watt_consumption rig1 = watt_consumption rig2 ->
  public_input_digest hw rig1 h ts = public_input_digest hw rig2 h ts.
Proof.
  intros Hid Howner Hcomp Hhash Hwatt.
  unfold public_input_digest, public_input_data.
  now rewrite Hid, Howner, Hcomp, Hhash, Hwatt.
Qed.

(** The text that is hashed has the items in the order of their keys. *)
Lemma public_input_text_spec (hw : string) (rig : MiningRig) (h ts : Z) :
  Json.dumps true (public_input_data hw rig h ts) = public_input_text hw rig h ts.
Proof.
  unfold public_input_data, public_input_text.
  cbn [Json.dumps map]. rewrite map_map. cbn [Json.dumps].
  reflexivity.
Qed.

(** C8 (counterexample).  Rig identity, declared capacity, height and
    timestamp do not fix the digest: rig 1 and the same rig with another
    component, hashed on the same miner at the same reading of the clock
    and at the same height, get different digests. *)
Lemma digest_depends_on_components : ~ Spec.digest_fixed_by_identity_and_capacity.
Proof.
  intros H.
  specialize (H Fixture.env_ok Fixture.world Registry.mock_rig_1
                Fixture.rig_1_upgraded 100 eq_refl eq_refl eq_refl eq_refl).
  vm_compute in H. discriminate H.
Qed.

(** C8 (amended).  The public-input digest is a function of eight inputs:
    [rig_id], [owner], [components], [hash_power] and [watt_consumption]
    of the rig, the trigger height, the timestamp (the clock read as a
    whole second) and the hardware identifier of the miner.  Two calls of
    [prepare_public_inputs] that agree on these eight return identical
    digest bytes, or raise the same exception, whatever else differs
    between the two rigs and the two worlds.  The digest is the SHA-256 of
    the JSON text of the eight items in the order of their keys. *)
Theorem prepare_public_inputs_deterministic
    (env1 env2 : Env) (w1 w2 : World) (rig1 rig2 : MiningRig) (h : Z) :
  rig_id rig1 = rig_id rig2 ->
  owner rig1 = owner rig2 ->
  components rig1 = components rig2 ->
  hash_power rig1 = hash_power rig2 ->
  watt_consumption rig1 = watt_consumption rig2 ->
  hardware_id (self w1) = hardware_id (self w2) ->
  Py.int_of_float (time env1 (tick w1)) = Py.int_of_float (time env2 (tick w2)) ->
  fst (prepare_public_inputs env1 rig1 h w1)
  = fst (prepare_public_inputs env2 rig2 h w2)
  /\ fst (prepare_public_inputs env1 rig1 h w1)
     = match Py.int_of_float (time env1 (tick w1)) with
       | inl e => inl e
       | inr timestamp =>
           inr (Sha256.digest
                  (Bytes.encode
                     (public_input_text (hardware_id (self w1)) rig1 h timestamp)))
       end.
Proof.
  intros Hid Howner Hcomp Hhash Hwatt Hhw Hclock.
  unfold prepare_public_inputs. run_monad.
  rewrite Hclock, Hhw.
  destruct (Py.int_of_float (time env2 (tick w2))) as [e|ts]; cbn [fst].
  - split; reflexivity.
  - split.
    + now rewrite (public_input_digest_ext _ rig1 rig2 h ts) by assumption.
    + unfold public_input_digest. now rewrite public_input_text_spec.
Qed.

Lemma prepare_public_inputs_deterministic_witness :
  Py.int_of_float (time Fixture.env_ok (tick Fixture.world))
  = Py.int_of_float
      (time Fixture.env_later
            (tick {| self := Fixture.fresh; tick := 7; trace := [Sleep 5] |}))
  /\ fst (prepare_public_inputs Fixture.env_ok Registry.mock_rig_1 100 Fixture.world)
     = fst (prepare_public_inputs Fixture.env_later Fixture.rig_1_moved 100
              {| self := Fixture.fresh; tick := 7; trace := [Sleep 5] |}).
Proof.
  split; [reflexivity|].
  apply (prepare_public_inputs_deterministic Fixture.env_ok Fixture.env_later
           Fixture.world {| self := Fixture.fresh; tick := 7; trace := [Sleep 5] |}
           Registry.mock_rig_1 Fixture.rig_1_moved 100);
    reflexivity.
Defined.

(** ** Statistics (C9, C10) *)

Lemma sum_fold_right (l : list Z) : Stats.sum l = fold_right Z.add 0 l.
Proof.
  unfold Stats.sum. apply fold_symmetric; intros; lia.
Qed.

(** C9 (counterexample).  The snapshot of the fixture miner has an eighth
    field, ['hardware_id']. *)
Lemma snapshot_has_a_hardware_id_field : ~ Spec.snapshot_has_exactly_stats_fields.
Proof.
  intros H.
  specialize (H Fixture.miner (Fixture.clock 10)).
  vm_compute in H.
  specialize (H _ eq_refl).
  discriminate H.
Qed.

(** C9 (amended).  The statistics snapshot contains exactly eight fields:
    [uptime_seconds], [proofs_generated], [proofs_per_second],
    [total_hash_power], [total_watt_consumption], [hardware_id],
    [active_rigs] and [total_rewards].  [hardware_id] is the configured
    hardware identifier; the others are derived from the clock, the
    counters and the registry: [active_rigs] is the number of registered
    rigs with the active flag set, [total_hash_power] and
    [total_watt_consumption] are the sums of the declared attributes over
    all registered rigs, and [total_rewards] counts the confirmed
    submissions. *)
Theorem snapshot_fields (me : Miner) (now : Py.float) (stats : Py.dict Stats.value) :
  Stats.monitor_mining_stats me now = inr stats ->
  let rigs := Py.values (mining_rigs me) in
  let uptime := Py.fsub now (start_time me) in
  Py.keys stats
  = [ "uptime_seconds"; "proofs_generated"; "proofs_per_second";
      "total_hash_power"; "total_watt_consumption"; "hardware_id";
      "active_rigs"; "total_rewards" ]
  /\ (exists seconds,
        Py.int_of_float uptime = inr seconds
        /\ Py.get "uptime_seconds" stats = Some (Stats.VNum (Stats.Int seconds)))
  /\ Py.get "proofs_generated" stats
     = Some (Stats.VNum (Stats.Int (proofs_generated me)))
  /\ (exists rate,
        Stats.proofs_per_second (proofs_generated me) uptime = inr rate
        /\ Py.get "proofs_per_second" stats = Some (Stats.VNum (Stats.round2 rate)))
  /\ Py.get "total_hash_power" stats
     = Some (Stats.VNum (Stats.Int (fold_right Z.add 0 (map hash_power rigs))))
  /\ Py.get "total_watt_consumption" stats
     = Some (Stats.VNum (Stats.Int (fold_right Z.add 0 (map watt_consumption rigs))))
  /\ Py.get "hardware_id" stats = Some (Stats.VStr (hardware_id me))
  /\ Py.get "active_rigs" stats
     = Some (Stats.VNum (Stats.Int (Z.of_nat (List.length (filter is_active rigs)))))
  /\ Py.get "total_rewards" stats = Some (Stats.VNum (Stats.Int (total_rewards me))).
Proof.
  intros Hsnap rigs uptime. unfold Stats.monitor_mining_stats in Hsnap.
  fold uptime in Hsnap.
  destruct (Stats.proofs_per_second (proofs_generated me) uptime) as [e|rate];
    [discriminate|].
  destruct (Py.int_of_float uptime) as [e|seconds]; [discriminate|].
  injection Hsnap as <-.
  rewrite <- !sum_fold_right.
  repeat split; try reflexivity.
  - exists seconds. split; reflexivity.
  - exists rate. split; reflexivity.
Qed.

Lemma snapshot_fields_witness :
  exists stats,
    Stats.monitor_mining_stats Fixture.miner (Fixture.clock 10) = inr stats
    /\ Py.get "active_rigs" stats = Some (Stats.VNum (Stats.Int 2))
    /\ Py.get "total_hash_power" stats = Some (Stats.VNum (Stats.Int 6500000)).
Proof.
  destruct (Stats.monitor_mining_stats Fixture.miner (Fixture.clock 10)) as [e|stats] eqn:Hsnap;
    [vm_compute in Hsnap; discriminate|].
  exists stats. split; [reflexivity|].
  destruct (snapshot_fields Fixture.miner (Fixture.clock 10) stats Hsnap)
    as (_ & _ & _ & _ & Hhash & _ & _ & Hactive & _).
  split; [exact Hactive | exact Hhash].
Defined.

(** A float above zero is not a zero. *)
Lemma positive_is_not_zero (x : Py.float) :
  Py.flt (Py.float_of_int 0) x = true -> Py.is_zero x = false.
Proof. destruct x as [s|s| |s m e]; simpl; auto; discriminate. Qed.

(** C10.  The computation of [proofs_per_second] never divides by zero:
    when [uptime] is not greater than zero the result is 0, otherwise it
    is [proofs_generated / uptime] (which raises only if the counter is
    too large for a float), and the guard excludes a zero divisor. *)
Theorem proofs_per_second_guarded (generated : Z) (uptime : Py.float) :
  Stats.proofs_per_second generated uptime
  = (if Py.flt (Py.float_of_int 0) uptime
     then if Py.is_finite (Py.float_of_int generated)
          then inr (Stats.Float (Py.fdiv (Py.float_of_int generated) uptime))
          else inl Py.OverflowError
     else inr (Stats.Int 0))
  /\ Stats.proofs_per_second generated uptime <> inl Py.ZeroDivisionError
  /\ Py.flt (Py.float_of_int 0) uptime && Py.is_zero uptime = false.
Proof.
  unfold Stats.proofs_per_second, Py.int_truediv_float.
  destruct (Py.flt (Py.float_of_int 0) uptime) eqn:Hpos.
  - rewrite (positive_is_not_zero uptime Hpos).
    destruct (Py.is_finite (Py.float_of_int generated)); cbn [negb andb];
      repeat split; discriminate.
  - repeat split; discriminate.
Qed.

(* ===================================================================== *)
(** * Further properties of the code                                      *)
(* ===================================================================== *)

(** ** Registry *)

Lemma set_same_value {V : Type} (d : Py.dict V) (k : string) (v : V) :
  Py.get k d = Some v -> Py.set k v d = d.
Proof.
  induction d as [|[k' v'] d IH]; simpl; [discriminate|].
  destruct (String.eqb_spec k k') as [->|Hne].
  - intros H. injection H as ->. reflexivity.
  - intros H. now rewrite IH.
Qed.

(** X1.  Refreshing a chain twice is the same as refreshing it once: the
    second [load_rigs_from_chain] finds its keys in place, rewrites the
    same rigs and returns the same list, so a repeated refresh neither
    duplicates nor reorders registry entries. *)
Theorem load_rigs_from_chain_idempotent (me : Miner) (chain : string) :
  Registry.load_rigs_from_chain (fst (Registry.load_rigs_from_chain me chain)) chain
  = Registry.load_rigs_from_chain me chain.
Proof.
  unfold Registry.load_rigs_from_chain.
  destruct (Py.truthy (Registry.oracle_address me chain)) eqn:Hcfg; cbn [negb fst].
  - unfold Registry.oracle_address in *. cbn [oracle_contracts with_mining_rigs].
    rewrite Hcfg. cbn [negb].
    unfold Registry.mock_rigs, Registry.load_step.
    cbn [fold_left fst snd mining_rigs with_mining_rigs app].
    set (k1 := Registry.rig_key chain Registry.mock_rig_1).
    set (k2 := Registry.rig_key chain Registry.mock_rig_2).
    set (d2 := Py.set k2 Registry.mock_rig_2
                 (Py.set k1 Registry.mock_rig_1 (mining_rigs me))).
    assert (H1 : Py.set k1 Registry.mock_rig_1 d2 = d2).
    { apply set_same_value. unfold d2.
      rewrite get_set_other by apply mock_keys_differ.
      apply get_set_same. }
    rewrite H1.
    assert (H2 : Py.set k2 Registry.mock_rig_2 d2 = d2).
    { apply set_same_value. apply get_set_same. }
    rewrite H2. reflexivity.
  - rewrite Hcfg. reflexivity.
Qed.

Lemma length_append (a b : string) :
  String.length (a +++ b) = (String.length a + String.length b)%nat.
Proof. induction a; simpl; auto. Qed.

Lemma append_split_by_length (a b s1 s2 : string) :
  String.length s1 = String.length s2 ->
  a +++ s1 = b +++ s2 -> a = b /\ s1 = s2.
Proof.
  revert b. induction a as [|c a IH]; intros [|c' b] Hlen H; simpl in H.
  - auto.
  - subst s1. simpl in Hlen. rewrite length_append in Hlen. lia.
  - subst s2. simpl in Hlen. rewrite length_append in Hlen. lia.
  - injection H as -> H. destruct (IH b Hlen H) as [-> ->]. auto.
Qed.

(** X2.  Among the rigs the code loads, the registry key identifies the
    chain and the rig: two different (chain, rig) pairs never share a key,
    so a refresh of one chain never overwrites the entry of another. *)
Theorem loaded_rig_keys_are_distinct (chain1 chain2 : string) (rig1 rig2 : MiningRig) :
  In rig1 Registry.mock_rigs ->
  In rig2 Registry.mock_rigs ->
  Registry.rig_key chain1 rig1 = Registry.rig_key chain2 rig2 ->
  chain1 = chain2 /\ rig1 = rig2.
Proof.
  intros H1 H2 Hkey. unfold Registry.rig_key in Hkey.
  apply append_split_by_length in Hkey.
  - destruct Hkey as [-> Hsuffix]. split; [reflexivity|].
    simpl in H1, H2.
    destruct H1 as [<-|[<-|[]]], H2 as [<-|[<-|[]]];
      try reflexivity; discriminate Hsuffix.
  - simpl in H1, H2.
    destruct H1 as [<-|[<-|[]]], H2 as [<-|[<-|[]]]; reflexivity.
Qed.

Lemma loaded_rig_keys_are_distinct_witness :
  In Registry.mock_rig_1 Registry.mock_rigs
  /\ In Registry.mock_rig_2 Registry.mock_rigs
  /\ Registry.rig_key "polygon" Registry.mock_rig_1
     <> Registry.rig_key "altcoinchain" Registry.mock_rig_2.
Proof.
  assert (H1 : In Registry.mock_rig_1 Registry.mock_rigs) by (simpl; auto).
  assert (H2 : In Registry.mock_rig_2 Registry.mock_rigs) by (simpl; auto).
  split; [exact H1|]. split; [exact H2|].
  intros Hkey.
  destruct (loaded_rig_keys_are_distinct _ _ _ _ H1 H2 Hkey) as [Hchain _].
  discriminate Hchain.
Defined.

(** X3.  The key format itself is not injective: two rigs that differ in
    chain and owner can get the same key, and registering the second then
    replaces the first instead of adding an entry. *)
Theorem rig_key_can_collide :
  exists (chain1 chain2 : string) (rig1 rig2 : MiningRig),
    (chain1, owner rig1, rig_id rig1) <> (chain2, owner rig2, rig_id rig2)
    /\ Registry.rig_key chain1 rig1 = Registry.rig_key chain2 rig2
    /\ forall d : Py.dict MiningRig,
         Py.get (Registry.rig_key chain1 rig1)
           (Py.set (Registry.rig_key chain2 rig2) rig2
              (Py.set (Registry.rig_key chain1 rig1) rig1 d)) = Some rig2
         /\ Py.keys (Py.set (Registry.rig_key chain2 rig2) rig2
                       (Py.set (Registry.rig_key chain1 rig1) rig1 d))
            = Py.keys (Py.set (Registry.rig_key chain1 rig1) rig1 d).
Proof.
  exists "eth", "eth:0xab",
    {| rig_id := 7; owner := "0xab:0xcd"; components := []; hash_power := 1;
       watt_consumption := 1; nuchain_address := "nu1a"; is_active := true |},
    {| rig_id := 7; owner := "0xcd"; components := []; hash_power := 2;
       watt_consumption := 2; nuchain_address := "nu1b"; is_active := true |}.
  split; [discriminate|].
  split; [reflexivity|].
  intros d.
  change (Registry.rig_key "eth:0xab" _) with "eth:0xab:0xcd:7".
  change (Registry.rig_key "eth" _) with "eth:0xab:0xcd:7".
  split; [apply get_set_same|].
  rewrite keys_set.
  assert (H : existsb (String.eqb "eth:0xab:0xcd:7")
                (Py.keys (Py.set "eth:0xab:0xcd:7"
                   {| rig_id := 7; owner := "0xab:0xcd"; components := []; hash_power := 1;
                      watt_consumption := 1; nuchain_address := "nu1a"; is_active := true |} d))
              = true).
  { apply existsb_exists. exists "eth:0xab:0xcd:7". split; [|apply String.eqb_refl].
    rewrite keys_set. destruct (existsb _ _) eqn:E.
    - apply existsb_exists in E. destruct E as (k & Hin & Heq).
      apply String.eqb_eq in Heq. now subst.
    - apply in_or_app. right. simpl. auto. }
  now rewrite H.
Qed.
(** X4.  Every rig that [load_rigs_from_chain] returns is registered under
    its key; a chain that is absent from [oracle_contracts], or whose
    entry has no address or an empty one, loads nothing and leaves the
    miner as it was. *)
Theorem load_rigs_from_chain_returns_what_it_registers (me : Miner) (chain : string) :
  let result := Registry.load_rigs_from_chain me chain in
  (forall rig, In rig (snd result) ->
               Py.get (Registry.rig_key chain rig) (mining_rigs (fst result)) = Some rig)
  /\ (Py.get chain (oracle_contracts me) = None -> result = (me, []))
  /\ (forall rpc, Py.get chain (oracle_contracts me)
                  = Some {| oc_address := None; oc_rpc := rpc |} ->
                  result = (me, []))
  /\ (forall rpc, Py.get chain (oracle_contracts me)
                  = Some {| oc_address := Some ""; oc_rpc := rpc |} ->
                  result = (me, [])).
Proof.
  cbv zeta. unfold Registry.load_rigs_from_chain, Registry.oracle_address.
  split; [|repeat split; intros; now rewrite H].
  destruct (Py.truthy _); cbn [negb fst snd]; [|intros rig []].
  unfold Registry.mock_rigs, Registry.load_step.
  cbn [fold_left fst snd app mining_rigs with_mining_rigs].
  intros rig [<-|[<-|[]]].
  - rewrite get_set_other by apply mock_keys_differ. apply get_set_same.
  - apply get_set_same.
Qed.

(** X5.  With an oracle address for both chains, [load_mining_rigs] on a
    new miner registers four entries, each of the two rigs once per
    chain; the prover request does not carry the chain, so every Trigger
    then sends two calls with the same rig id and height for each rig. *)
Theorem both_chains_register_each_rig_twice (cfg : Config) (now : Py.float) :
  Py.truthy (Registry.oracle_address (init cfg now) "altcoinchain") = true ->
  Py.truthy (Registry.oracle_address (init cfg now) "polygon") = true ->
  let me := Registry.load_mining_rigs (init cfg now) in
  Py.keys (mining_rigs me)
  = [ Registry.rig_key "altcoinchain" Registry.mock_rig_1;
      Registry.rig_key "altcoinchain" Registry.mock_rig_2;
      Registry.rig_key "polygon" Registry.mock_rig_1;
      Registry.rig_key "polygon" Registry.mock_rig_2 ]
  /\ Registry.active_rigs me
     = [ Registry.mock_rig_1; Registry.mock_rig_2;
         Registry.mock_rig_1; Registry.mock_rig_2 ]
  /\ forall (env : Env) (h : Z) (tick0 : nat) (trace0 : list Effect),
       finite_clock env ->
       prove_calls (effects_of (trigger_proof_generation env h)
                      {| self := me; tick := tick0; trace := trace0 |})
       = [(1, h); (2, h); (1, h); (2, h)].
Proof.
  intros Halt Hpol me.
  assert (Hrigs : mining_rigs me
                  = [ (Registry.rig_key "altcoinchain" Registry.mock_rig_1, Registry.mock_rig_1);
                      (Registry.rig_key "altcoinchain" Registry.mock_rig_2, Registry.mock_rig_2);
                      (Registry.rig_key "polygon" Registry.mock_rig_1, Registry.mock_rig_1);
                      (Registry.rig_key "polygon" Registry.mock_rig_2, Registry.mock_rig_2) ]).
  { unfold me, Registry.load_mining_rigs, Registry.load_rigs_from_chain.
    rewrite Halt. cbn [negb].
    unfold Registry.oracle_address in *. cbn [oracle_contracts with_mining_rigs fst snd] in *.
    rewrite Hpol. cbn [negb]. reflexivity. }
  split; [now rewrite Hrigs|].
  assert (Hactive : Registry.active_rigs me
                    = [ Registry.mock_rig_1; Registry.mock_rig_2;
                        Registry.mock_rig_1; Registry.mock_rig_2 ]).
  { unfold Registry.active_rigs. now rewrite Hrigs. }
  split; [exact Hactive|].
  intros env h tick0 trace0 Hfin.
  destruct (trigger_spec env h {| self := me; tick := tick0; trace := trace0 |})
    as (w' & added & Hrun & Hext & _ & _ & _ & Hcalls).
  rewrite (effects_of_extends _ _ added) by (rewrite Hrun; exact Hext).
  rewrite (Hcalls Hfin). cbn [self]. rewrite Hactive. reflexivity.
Qed.

Lemma both_chains_register_each_rig_twice_witness :
  Py.truthy (Registry.oracle_address (init Sample.cfg_both Fixture.epoch) "altcoinchain")
  = true
  /\ Py.truthy (Registry.oracle_address (init Sample.cfg_both Fixture.epoch) "polygon")
     = true
  /\ Registry.active_rigs (Registry.load_mining_rigs (init Sample.cfg_both Fixture.epoch))
     = [ Registry.mock_rig_1; Registry.mock_rig_2;
         Registry.mock_rig_1; Registry.mock_rig_2 ].
Proof.
  split; [reflexivity|]. split; [reflexivity|].
  exact (proj1 (proj2 (both_chains_register_each_rig_twice
                         Sample.cfg_both Fixture.epoch eq_refl eq_refl))).
Defined.

(** ** Hexadecimal text and digest *)

Lemma fromhex_hex_byte (b : byte) (rest : string) :
  Bytes.fromhex
    (String (Bytes.hex_digit (Bytes.to_Z b / 16))
       (String (Bytes.hex_digit (Bytes.to_Z b mod 16)) rest))
  = match Bytes.fromhex rest with
    | Some bs => Some (b :: bs)
    | None => None
    end.
Proof. destruct b; reflexivity. Qed.

Lemma hex_length (bs : list byte) :
  String.length (Bytes.hex bs) = (2 * List.length bs)%nat.
Proof.
  induction bs as [|b bs IH]; [reflexivity|].
  cbn [Bytes.hex String.length List.length]. rewrite IH. lia.
Qed.

(** X6.  [bytes.fromhex] undoes [hex()]: the digest sent to the prover as
    hexadecimal text, and the proof bytes written into the payload, decode
    to the bytes they were made from, and the text has two characters per
    byte. *)
Theorem fromhex_hex (bs : list byte) :
  Bytes.fromhex (Bytes.hex bs) = Some bs
  /\ String.length (Bytes.hex bs) = (2 * List.length bs)%nat.
Proof.
  split; [|apply hex_length].
  induction bs as [|b bs IH]; [reflexivity|].
  cbn [Bytes.hex]. rewrite fromhex_hex_byte, IH. reflexivity.
Qed.

Lemma fold_compress_length (blocks : list (list Z)) (h : list Z) :
  List.length h = 8%nat ->
  List.length (fold_left Sha256.compress blocks h) = 8%nat.
Proof.
  revert h. induction blocks as [|b blocks IH]; intros h Hh; simpl; auto.
Qed.

Lemma digest_length (msg : list byte) : List.length (Sha256.digest msg) = 32%nat.
Proof.
  unfold Sha256.digest. cbv zeta. rewrite length_map.
  match goal with
  | |- context [fold_left Sha256.compress ?bl Sha256.H0] =>
      pose proof (fold_compress_length bl Sha256.H0 eq_refl) as Hlen;
      destruct (fold_left Sha256.compress bl Sha256.H0)
        as [|a0 [|a1 [|a2 [|a3 [|a4 [|a5 [|a6 [|a7 [|a8 l]]]]]]]]];
      try discriminate Hlen
  end.
  reflexivity.
Qed.

(** X7.  Whenever [prepare_public_inputs] returns, it returns 32 bytes,
    which the prover request carries as 64 hexadecimal characters. *)
Theorem public_inputs_are_32_bytes (env : Env) (rig : MiningRig) (h : Z)
    (w : World) (digest : list byte) :
  fst (prepare_public_inputs env rig h w) = inr digest ->
  List.length digest = 32%nat /\ String.length (Bytes.hex digest) = 64%nat.
Proof.
  unfold prepare_public_inputs. run_monad.
  destruct (Py.int_of_float (time env (tick w))) as [e|ts]; cbn [fst];
    intros H; [discriminate|].
  injection H as <-.
  assert (Hlen : List.length (public_input_digest (hardware_id (self w)) rig h ts)
                 = 32%nat) by apply digest_length.
  split; [exact Hlen|].
  rewrite hex_length, Hlen. reflexivity.
Qed.

Lemma public_inputs_are_32_bytes_witness :
  fst (prepare_public_inputs Fixture.env_ok Registry.mock_rig_1 100 Fixture.world)
  = inr (public_input_digest "nvidia-a100" Registry.mock_rig_1 100 1700000000)
  /\ List.length (public_input_digest "nvidia-a100" Registry.mock_rig_1 100 1700000000)
     = 32%nat.
Proof.
  assert (H : fst (prepare_public_inputs Fixture.env_ok Registry.mock_rig_1 100
                     Fixture.world)
              = inr (public_input_digest "nvidia-a100" Registry.mock_rig_1 100
                       1700000000)) by reflexivity.
  split; [exact H|].
  exact (proj1 (public_inputs_are_32_bytes Fixture.env_ok Registry.mock_rig_1 100
                  Fixture.world _ H)).
Defined.

(** ** Prover client and dispatcher *)

(** X8.  [generate_cysic_proof_for_rig] posts exactly one request, built
    from the rig's attributes and the digest, prints exactly one line and
    never raises.  It returns a proof exactly when the prover answers HTTP
    200 with a body that holds hexadecimal ['proof'] and
    ['verification_key'] (and the elapsed time converts to an integer);
    the proof then carries the decoded bytes and the digest that was sent,
    and [proofs_generated] grows by one.  In every other case it returns
    [None] and the counter is unchanged. *)
Theorem generate_returns_proof_iff_answer_usable
    (env : Env) (rig : MiningRig) (h : Z) (w : World) (ts : Z) :
  Py.int_of_float (time env (1 + tick w)) = inr ts ->
  let run := generate_cysic_proof_for_rig env rig h in
  let added := effects_of run w in
  let after := self (snd (run w)) in
  let digest := public_input_digest (hardware_id (self w)) rig h ts in
  let request := proof_request (self w) rig h digest in
  let elapsed :=
    Py.int_of_float
      (Py.fmul (Py.fsub (time env (3 + tick w)) (time env (tick w)))
               (Py.float_of_int 1000)) in
  let outcome :=
    match post_prove env (2 + tick w) (cysic_endpoint (self w) +++ "/prove") request with
    | Some response =>
        if prove_status response =? 200 then
          match decoded response, elapsed with
          | Some (pbytes, vkey), inr ms =>
              Some {| proof_bytes := pbytes;
                      public_inputs := digest;
                      verification_key := vkey;
                      proof_hardware_id := hardware_id (self w);
                      generation_time_ms := ms |}
          | _, _ => None
          end
        else None
    | None => None
    end in
  fst (run w) = inr outcome
  /\ prove_requests added = [request]
  /\ List.length (printed added) = 1%nat
  /\ proofs_generated after
     = proofs_generated (self w) + match outcome with Some _ => 1 | None => 0 end
  /\ setup after = setup (self w)
  /\ total_rewards after = total_rewards (self w).
Proof.
  intros Hts. cbv zeta.
  change (1 + tick w)%nat with (S (tick w)) in Hts.
  change (2 + tick w)%nat with (S (S (tick w))).
  change (3 + tick w)%nat with (S (S (S (tick w)))).
  unfold effects_of, decoded.
  unfold generate_cysic_proof_for_rig, prepare_public_inputs,
    requests_post_prove, fromhex_item.
  run_monad. rewrite Hts. run_monad.
  split_cases.
  all: cbn [trace self fst snd]; rewrite <- ?app_assoc, ?skipn_length_app.
  all: repeat split; try reflexivity.
  all: simpl; try congruence; try lia.
Qed.

Lemma generate_returns_proof_iff_answer_usable_witness :
  Py.int_of_float (time Fixture.env_rig1_fails (1 + tick Fixture.world))
  = inr 1700000001
  /\ fst (generate_cysic_proof_for_rig Fixture.env_rig1_fails Registry.mock_rig_1 100
            Fixture.world) = inr None.
Proof.
  split; [reflexivity|].
  exact (proj1 (generate_returns_proof_iff_answer_usable Fixture.env_rig1_fails
                  Registry.mock_rig_1 100 Fixture.world 1700000001 eq_refl)).
Defined.

(** X9.  The dispatcher only ever calls the prover for a rig that is in
    the registry with its active flag set, and only at a height it was
    triggered with: an inactive or unregistered rig gets no call. *)
Theorem only_active_registered_rigs_are_called
    (env : Env) (w : World) (heights : list Z) (rig h : Z) :
  finite_clock env ->
  In (rig, h) (prove_calls (effects_of (run_triggers env heights) w)) ->
  In h heights
  /\ exists (key : string) (r : MiningRig),
       In (key, r) (mining_rigs (self w))
       /\ is_active r = true
       /\ rig_id r = rig.
Proof.
  intros Hfin Hin.
  destruct (run_triggers_spec env heights w)
    as (w' & added & Hrun & Hext & _ & _ & Hcalls).
  rewrite (effects_of_extends _ w added) in Hin by (rewrite Hrun; exact Hext).
  rewrite (Hcalls Hfin) in Hin.
  apply in_flat_map in Hin. destruct Hin as (h' & Hh' & Hin).
  unfold calls_at in Hin. apply in_map_iff in Hin.
  destruct Hin as (r & Heq & Hr). injection Heq as <- <-.
  split; [exact Hh'|].
  unfold Registry.active_rigs in Hr. apply filter_In in Hr.
  destruct Hr as [Hr Hactive].
  unfold Py.values in Hr. apply in_map_iff in Hr.
  destruct Hr as ([key r'] & Hsnd & Hentry). simpl in Hsnd. subst r'.
  exists key, r. auto.
Qed.

Lemma only_active_registered_rigs_are_called_witness :
  finite_clock Fixture.env_ok
  /\ In (2, 100) (prove_calls (effects_of (run_triggers Fixture.env_ok [100])
                                 Fixture.world))
  /\ In 100 [100].
Proof.
  assert (Hin : In (2, 100) (prove_calls (effects_of (run_triggers Fixture.env_ok [100])
                                            Fixture.world))).
  { vm_compute. right. left. reflexivity. }
  split; [exact fixture_clock_finite|]. split; [exact Hin|].
  exact (proj1 (only_active_registered_rigs_are_called Fixture.env_ok Fixture.world
                  [100] 2 100 fixture_clock_finite Hin)).
Defined.

Lemma successes_length {E A : Type} (rs : list (E + option A)) :
  (List.length (successes rs) <= List.length rs)%nat.
Proof.
  unfold successes. induction rs as [|[e|[a|]] rs IH]; simpl; lia.
Qed.

Lemma trigger_counter_bound (env : Env) (h : Z) (w : World) :
  let w' := snd (trigger_proof_generation env h w) in
  proofs_generated (self w) <= proofs_generated (self w')
  /\ proofs_generated (self w')
     <= proofs_generated (self w)
        + Z.of_nat (List.length (Registry.active_rigs (self w)))
  /\ setup (self w') = setup (self w).
Proof.
  unfold trigger_proof_generation. run_monad.
  destruct (Registry.active_rigs (self w)) eqn:Hactive.
  - simpl. repeat split; lia.
  - destruct (fan_out_spec env h w)
      as (rs & w' & added & Hrun & Hext & _ & _ & Hlen & _ & Hgen & _).
    rewrite Hrun. cbn [snd]. rewrite Hactive in Hlen.
    pose proof (successes_length rs).
    repeat split; try apply Hext; lia.
Qed.

(** X10.  [proofs_generated] never decreases, and over a sequence of
    Triggers it grows by at most one per prover call: at most the number
    of Triggers times the number of active rigs. *)
Theorem proofs_generated_grows_by_at_most_one_per_call
    (env : Env) (heights : list Z) (w : World) :
  let w' := snd (run_triggers env heights w) in
  proofs_generated (self w) <= proofs_generated (self w')
  /\ proofs_generated (self w')
     <= proofs_generated (self w)
        + Z.of_nat (List.length heights)
          * Z.of_nat (List.length (Registry.active_rigs (self w))).
Proof.
  revert w. induction heights as [|h heights IH]; intros w; cbn [run_triggers].
  - simpl. lia.
  - unfold bind.
    destruct (trigger_spec env h w) as (w1 & a1 & Hrun & _).
    pose proof (trigger_counter_bound env h w) as Hstep.
    rewrite Hrun in *. cbn [snd] in Hstep.
    destruct Hstep as (Hlo & Hhi & Hsetup).
    specialize (IH w1). cbv zeta in IH.
    rewrite (active_rigs_setup _ _ Hsetup) in IH.
    cbv zeta. cbn [List.length]. lia.
Qed.

(** X11.  One turn of the time-driven loop [generate_cysic_proofs] uses
    the wall-clock second as block height: with a non-empty registry it
    calls the prover once per active rig at height [int(time.time())],
    with an empty registry it calls nobody; it submits nothing. *)
Theorem time_driven_turn_uses_clock_second_as_height
    (env : Env) (w : World) (second : Z) :
  finite_clock env ->
  Py.int_of_float (time env (tick w)) = inr second ->
  let added := effects_of (generate_cysic_proofs_turn env) w in
  fst (generate_cysic_proofs_turn env w) = inr tt
  /\ prove_calls added
     = (if Py.nonempty (mining_rigs (self w))
        then map (fun rig => (rig_id rig, second)) (Registry.active_rigs (self w))
        else [])
  /\ broadcasts added = [].
Proof.
  intros Hfin Hsecond. cbv zeta.
  unfold effects_of, generate_cysic_proofs_turn. run_monad.
  destruct (Py.nonempty (mining_rigs (self w))).
  - rewrite Hsecond.
    destruct (trigger_spec env second (next_tick w))
      as (w' & added & Hrun & Hext & Heff & _ & _ & Hcalls).
    unfold next_tick in *. rewrite Hrun. cbn [fst snd].
    destruct Hext as [Ht _]. cbn [trace self] in *. rewrite Ht, skipn_length_app.
    split; [reflexivity|]. split; [now apply Hcalls|].
    now apply dispatch_effects_quiet.
  - cbn [fst snd]. rewrite skipn_all. auto.
Qed.

Lemma time_driven_turn_uses_clock_second_as_height_witness :
  finite_clock Fixture.env_ok
  /\ Py.int_of_float (time Fixture.env_ok (tick Fixture.world)) = inr 1700000000
  /\ prove_calls (effects_of (generate_cysic_proofs_turn Fixture.env_ok) Fixture.world)
     = [(1, 1700000000); (2, 1700000000)].
Proof.
  split; [exact fixture_clock_finite|]. split; [reflexivity|].
  exact (proj1 (proj2 (time_driven_turn_uses_clock_second_as_height Fixture.env_ok
                         Fixture.world 1700000000 fixture_clock_finite eq_refl))).
Defined.

(** ** Submission to nuChain *)

(** X12.  Without a ['relayer_address'] in the configuration,
    [submit_to_nuchain] makes no request and does not even read the
    clock: it prints the [KeyError] and leaves the miner as it was. *)
Theorem submit_without_relayer_posts_nothing
    (env : Env) (w : World) (rig : MiningRig) (proof : CysicProof) (h : Z) :
  cfg_relayer_address (config (self w)) = None ->
  submit_to_nuchain env rig proof h w
  = (inr tt,
     {| self := self w;
        tick := tick w;
        trace := trace w
                 ++ [Print (MsgSubmissionError (Py.KeyError "relayer_address"))] |}).
Proof.
  intros Hrel. unfold submit_to_nuchain. run_monad. rewrite Hrel. reflexivity.
Qed.

Lemma submit_without_relayer_posts_nothing_witness :
  cfg_relayer_address (config (self Sample.world_no_relayer)) = None
  /\ broadcasts (trace (snd (submit_to_nuchain Fixture.env_ok Registry.mock_rig_1
                              Fixture.proof 100 Sample.world_no_relayer))) = [].
Proof.
  split; [reflexivity|].
  rewrite (submit_without_relayer_posts_nothing Fixture.env_ok Sample.world_no_relayer
             Registry.mock_rig_1 Fixture.proof 100 eq_refl).
  reflexivity.
Defined.

Lemma submit_edges (env : Env) (w : World) (rig : MiningRig) (proof : CysicProof)
    (h : Z) (creator : string) :
  finite_clock env ->
  cfg_relayer_address (config (self w)) = Some creator ->
  exists tx added w',
    submit_to_nuchain env rig proof h w = (inr tt, w')
    /\ extends w w' added
    /\ broadcasts added = [tx]
    /\ let answer := post_broadcast env (2 + tick w)
                       (nuchain_rpc (self w) +++ "/broadcast_tx_commit") tx in
       (forall response,
           answer = Some response ->
           bc_status response <> 200 ->
           printed added = [] /\ self w' = self w)
       /\ (forall response,
           answer = Some response ->
           bc_status response = 200 ->
           bc_json response = Some (Some {| tx_code := Some 0; tx_hash := None |}) ->
           printed added = [MsgSubmissionError (Py.KeyError "hash")]
           /\ self w' = self w)
       /\ (forall response,
           answer = Some response ->
           bc_status response = 200 ->
           bc_json response = None ->
           printed added = [MsgSubmissionError Py.JSONDecodeError]
           /\ self w' = self w).
Proof.
  intros Hfin Hrel.
  destruct (int_of_float_finite _ (Hfin (tick w))) as [t1 Ht1].
  destruct (int_of_float_finite _ (Hfin (S (tick w)))) as [t2 Ht2].
  unfold submit_to_nuchain, encode_mining_payload, requests_post_broadcast,
    result_hash.
  run_monad. rewrite Hrel. run_monad. rewrite Ht1. run_monad.
  rewrite Ht2. run_monad.
  match goal with
  | |- context [post_broadcast env _ _ ?tx] => set (the_tx := tx)
  end.
  exists the_tx.
  split_cases.
  all: do 2 eexists; split; [reflexivity|].
  all: split; [split; [cbn [trace]; rewrite <- ?app_assoc; reflexivity | reflexivity]|].
  all: split; [reflexivity|].
  all: cbn zeta; change (2 + tick w)%nat with (S (S (tick w))).
  all: repeat split; intros.
  all: repeat match goal with
         | H : (_ =? _) = true |- _ => apply Z.eqb_eq in H
         | H : (_ =? _) = false |- _ => apply Z.eqb_neq in H
         end.
  all: unify_answers.
  all: simpl in *; try congruence; try lia.
Qed.

(** X13.  When the ledger answers the submission with an HTTP status
    other than 200, [submit_to_nuchain] drops the proof silently: the one
    request was made, nothing is printed and no counter changes. *)
Theorem rejected_status_is_dropped_silently (env : Env) (w : World)
    (rig : MiningRig) (proof : CysicProof) (h : Z) (creator : string) :
  finite_clock env ->
  cfg_relayer_address (config (self w)) = Some creator ->
  let run := submit_to_nuchain env rig proof h in
  exists tx,
    broadcasts (effects_of run w) = [tx]
    /\ forall response,
         post_broadcast env (2 + tick w)
           (nuchain_rpc (self w) +++ "/broadcast_tx_commit") tx = Some response ->
         bc_status response <> 200 ->
         printed (effects_of run w) = []
         /\ self (snd (run w)) = self w.
Proof.
  intros Hfin Hrel run.
  destruct (submit_edges env w rig proof h creator Hfin Hrel)
    as (tx & added & w' & Hrun & Hext & Hposts & Hsilent & _).
  fold run in Hrun.
  rewrite (effects_of_extends _ w added) by (rewrite Hrun; exact Hext).
  rewrite Hrun. exists tx. split; [exact Hposts | exact Hsilent].
Qed.

Lemma rejected_status_is_dropped_silently_witness :
  finite_clock Sample.env_unavailable
  /\ cfg_relayer_address (config (self Fixture.world))
     = Some "nu1relayer000000000000000000000000000000000"
  /\ printed (effects_of (submit_to_nuchain Sample.env_unavailable Registry.mock_rig_1
                            Fixture.proof 100) Fixture.world) = [].
Proof.
  assert (Hfin : finite_clock Sample.env_unavailable) by (intros n; reflexivity).
  split; [exact Hfin|]. split; [reflexivity|].
  destruct (rejected_status_is_dropped_silently Sample.env_unavailable Fixture.world
              Registry.mock_rig_1 Fixture.proof 100 _ Hfin eq_refl)
    as (tx & _ & Hsilent).
  refine (proj1 (Hsilent {| bc_status := 503; bc_json := None |} eq_refl _)).
  discriminate.
Defined.

(** X14.  A ledger answer with HTTP 200 and code 0 but without a
    ['hash'], or with a body that is not JSON, is reported as an error and
    not counted: [total_rewards] and the rest of the miner stay as they
    were although the request was made. *)
Theorem accepted_without_hash_is_not_counted (env : Env) (w : World)
    (rig : MiningRig) (proof : CysicProof) (h : Z) (creator : string) :
  finite_clock env ->
  cfg_relayer_address (config (self w)) = Some creator ->
  let run := submit_to_nuchain env rig proof h in
  exists tx,
    broadcasts (effects_of run w) = [tx]
    /\ let answer := post_broadcast env (2 + tick w)
                       (nuchain_rpc (self w) +++ "/broadcast_tx_commit") tx in
       (forall response,
           answer = Some response ->
           bc_status response = 200 ->
           bc_json response = Some (Some {| tx_code := Some 0; tx_hash := None |}) ->
           printed (effects_of run w) = [MsgSubmissionError (Py.KeyError "hash")]
           /\ self (snd (run w)) = self w)
       /\ (forall response,
           answer = Some response ->
           bc_status response = 200 ->
           bc_json response = None ->
           printed (effects_of run w) = [MsgSubmissionError Py.JSONDecodeError]
           /\ self (snd (run w)) = self w).
Proof.
  intros Hfin Hrel run.
  destruct (submit_edges env w rig proof h creator Hfin Hrel)
    as (tx & added & w' & Hrun & Hext & Hposts & _ & Hhash & Hjson).
  fold run in Hrun.
  rewrite (effects_of_extends _ w added) by (rewrite Hrun; exact Hext).
  rewrite Hrun. exists tx. split; [exact Hposts|].
  split; [exact Hhash | exact Hjson].
Qed.

Lemma accepted_without_hash_is_not_counted_witness :
  finite_clock Sample.env_no_hash
  /\ cfg_relayer_address (config (self Fixture.world))
     = Some "nu1relayer000000000000000000000000000000000"
  /\ total_rewards (self (snd (submit_to_nuchain Sample.env_no_hash Registry.mock_rig_1
                                 Fixture.proof 100 Fixture.world)))
     = total_rewards (self Fixture.world).
Proof.
  assert (Hfin : finite_clock Sample.env_no_hash) by (intros n; reflexivity).
  split; [exact Hfin|]. split; [reflexivity|].
  destruct (accepted_without_hash_is_not_counted Sample.env_no_hash Fixture.world
              Registry.mock_rig_1 Fixture.proof 100 _ Hfin eq_refl)
    as (tx & _ & Hhash & _).
  now rewrite (proj2 (Hhash _ eq_refl eq_refl eq_refl)).
Defined.

(** X18.  The proof pipeline never writes the registry or the
    configuration: after any run of the dispatcher, the monitor, the
    submission or a time-driven turn, every attribute of the miner other
    than the two counters is what it was, also when [RecursionError]
    escapes from the monitor. *)
Theorem pipeline_never_touches_registry_or_configuration
    (env : Env) (w : World) :
  (forall heights,
      setup (self (snd (run_triggers env heights w))) = setup (self w))
  /\ (forall stack sessions depth,
      setup (self (snd (monitor_nuchain_blocks env stack sessions depth w)))
      = setup (self w))
  /\ (forall rig proof h,
      setup (self (snd (submit_to_nuchain env rig proof h w))) = setup (self w))
  /\ setup (self (snd (generate_cysic_proofs_turn env w))) = setup (self w).
Proof.
  repeat split.
  - intros heights.
    destruct (run_triggers_spec env heights w) as (w' & added & Hrun & Hext & _).
    rewrite Hrun. apply Hext.
  - intros stack sessions depth.
    destruct (monitor_spec env stack sessions depth w w eq_refl eq_refl)
      as (w' & w0' & added & Hrun & _ & Hext & _).
    rewrite Hrun. apply Hext.
  - intros rig proof h.
    destruct (submit_spec env rig proof h w) as (w' & added & Hrun & Hext & _).
    rewrite Hrun. apply Hext.
  - unfold generate_cysic_proofs_turn. run_monad.
    destruct (Py.nonempty (mining_rigs (self w))); [|reflexivity].
    destruct (Py.int_of_float (time env (tick w))) as [e|second]; [reflexivity|].
    destruct (trigger_spec env second (next_tick w)) as (w' & added & Hrun & Hext & _).
    unfold next_tick in *. rewrite Hrun. apply Hext.
Qed.

(** ** Block monitor *)

Lemma handle_frames_stops_at_malformed (env : Env) (stack : Stack) (depth : nat)
    (e : Py.Exn) (before after : list Frame) :
  forall w : World,
    handle_frames env stack depth (before ++ Malformed e :: after) w
    = handle_frames env stack depth (before ++ [Malformed e]) w
    /\ exists x, fst (handle_frames env stack depth (before ++ [Malformed e]) w) = inl x.
Proof.
  induction before as [|[h| |e'] before IH]; intros w; cbn [app handle_frames].
  - unfold raise. split; [reflexivity|]. now exists e.
  - unfold call_at_depth. destruct (depth <? dispatch_limit stack)%nat; run_monad.
    + destruct (trigger_proof_generation env h _) as [[x|[]] w1].
      * split; [reflexivity|]. now exists x.
      * apply IH.
    + split; [reflexivity|]. now exists Py.RecursionError.
  - apply IH.
  - unfold raise. split; [reflexivity|]. now exists e'.
Qed.

Lemma frames_raise_at_malformed (can_dispatch : bool) (e : Py.Exn)
    (before after : list Frame) :
  frames_raise can_dispatch (before ++ Malformed e :: after) = true.
Proof.
  induction before as [|[| |] before IH]; cbn [app frames_raise]; auto.
  now destruct can_dispatch.
Qed.

(** X15.  A message on which parsing raises ends the connection: the
    messages that follow it on the same connection trigger nothing, they
    are lost, and the monitor sleeps 5 seconds before it connects again
    (unless the invocation is too deep to sleep). *)
Theorem malformed_message_drops_rest_of_connection
    (env : Env) (stack : Stack) (e : Py.Exn) (before after : list Frame)
    (ending : StreamEnd) (later : list Session) (depth : nat) (w : World) :
  monitor_nuchain_blocks env stack
    (Connected (before ++ Malformed e :: after) ending :: later) depth w
  = monitor_nuchain_blocks env stack
      (Connected (before ++ [Malformed e]) Closed :: later) depth w
  /\ sleeps (effects_of
               (monitor_nuchain_blocks env stack
                  [Connected (before ++ Malformed e :: after) ending] depth) w)
     = if (depth <? sleep_limit stack)%nat then [5] else [].
Proof.
  split.
  - cbn [monitor_nuchain_blocks]. unfold run_session. run_monad.
    match goal with
    | |- context [handle_frames env stack depth (before ++ Malformed e :: after) ?w0] =>
        destruct (handle_frames_stops_at_malformed env stack depth e before after w0)
          as [Hsame [x Hraise]]; rewrite Hsame;
        destruct (handle_frames env stack depth (before ++ [Malformed e]) w0) as [r w1]
    end.
    cbn [fst] in Hraise. subst r. reflexivity.
  - destruct (monitor_spec env stack
                [Connected (before ++ Malformed e :: after) ending] depth w w
                eq_refl eq_refl)
      as (w' & w0' & added & Hrun & _ & Hext & _ & _ & _ & Hsleep & _).
    rewrite (effects_of_extends _ w added) by (rewrite Hrun; exact Hext).
    rewrite Hsleep. cbn [retries]. unfold retried, sleeping.
    assert (Hraises : session_raises (dispatching stack depth)
                        (Connected (before ++ Malformed e :: after) ending) = true).
    { cbn [session_raises]. rewrite frames_raise_at_malformed. now destruct ending. }
    rewrite Hraises. cbn [andb].
    now destruct (depth <? sleep_limit stack)%nat.
Qed.

(** X16.  When the stream ends without an exception,
    [monitor_nuchain_blocks] returns: it neither sleeps nor connects
    again, so block monitoring stops. *)
Theorem clean_stream_end_stops_monitor
    (env : Env) (stack : Stack) (frames : list Frame) (later : list Session)
    (depth : nat) (w : World) :
  frames_raise (dispatching stack depth) frames = false ->
  let run := monitor_nuchain_blocks env stack (Connected frames Closed :: later) depth in
  run w = monitor_nuchain_blocks env stack [Connected frames Closed] depth w
  /\ fst (run w) = inr Returned
  /\ sleeps (effects_of run w) = []
  /\ connect_depths (effects_of run w) = [depth].
Proof.
  intros Hok run.
  destruct (run_session_spec env stack (Connected frames Closed) depth w w
              eq_refl eq_refl)
    as (r & w1 & w01 & a1 & Hsession & _ & _ & _ & _ & _ & _ & _ & Hres).
  cbn [session_raises] in Hres. rewrite Hok in Hres. subst r.
  assert (Hrun : forall rest,
             monitor_nuchain_blocks env stack (Connected frames Closed :: rest) depth w
             = (inr Returned, w1)).
  { intros rest. cbn [monitor_nuchain_blocks]. run_monad.
    rewrite Hsession. reflexivity. }
  split; [unfold run; now rewrite !Hrun|].
  split; [unfold run; now rewrite Hrun|].
  destruct (monitor_spec env stack (Connected frames Closed :: later) depth w w
              eq_refl eq_refl)
    as (w' & w0' & added & Hrun' & _ & Hext & _ & _ & _ & Hsleep & Hconn).
  fold run in Hrun'.
  rewrite (effects_of_extends _ w added) by (rewrite Hrun'; exact Hext).
  cbn [retries reached] in Hsleep, Hconn.
  unfold retried in Hsleep, Hconn. cbn [session_raises] in Hsleep, Hconn.
  rewrite Hok in Hsleep, Hconn.
  split; [exact Hsleep | exact Hconn].
Qed.

Lemma clean_stream_end_stops_monitor_witness :
  frames_raise (dispatching Fixture.stack 1) [NewBlock 100; Ignored] = false
  /\ fst (monitor_nuchain_blocks Fixture.env_ok Fixture.stack
            [Connected [NewBlock 100; Ignored] Closed; Connected [NewBlock 101] Closed]
            1 Fixture.world) = inr Returned.
Proof.
  split; [reflexivity|].
  exact (proj1 (proj2 (clean_stream_end_stops_monitor Fixture.env_ok Fixture.stack
                         [NewBlock 100; Ignored] [Connected [NewBlock 101] Closed]
                         1 Fixture.world eq_refl))).
Defined.

(** X17.  Every block height for which the monitor calls the dispatcher
    reaches the prover: over a whole run, the prover calls are one per
    active rig for each height of [triggered], in arrival order; the
    monitor never posts to nuChain and [total_rewards] stays as it was.
    The connections that the script holds beyond the one at which
    [RecursionError] escapes trigger nothing. *)
Theorem monitor_dispatches_every_received_height
    (env : Env) (stack : Stack) (sessions : list Session) (depth : nat) (w : World) :
  finite_clock env ->
  let run := monitor_nuchain_blocks env stack sessions depth in
  prove_calls (effects_of run w)
  = flat_map (fun h => map (fun rig => (rig_id rig, h)) (Registry.active_rigs (self w)))
      (triggered stack depth sessions)
  /\ broadcasts (effects_of run w) = []
  /\ total_rewards (self (snd (run w))) = total_rewards (self w).
Proof.
  intros Hfin run.
  destruct (monitor_spec env stack sessions depth w w eq_refl eq_refl)
    as (w' & w0' & added & Hrun & Hrun0 & Hext & Ht0 & Hself & _).
  destruct (run_triggers_spec env (triggered stack depth sessions) w)
    as (w2 & a2 & Hrun2 & Hext2 & Heff2 & Hrew2 & Hcalls2).
  rewrite Hrun0 in Hrun2. injection Hrun2 as <-.
  assert (a2 = dispatched added) as ->.
  { destruct Hext2 as [Ht2 _]. rewrite Ht0 in Ht2. now apply app_inv_head in Ht2. }
  fold run in Hrun.
  rewrite (effects_of_extends _ w added) by (rewrite Hrun; exact Hext).
  rewrite Hrun. cbn [snd].
  rewrite <- (prove_calls_dispatched added), <- (broadcasts_dispatched added).
  split; [apply Hcalls2, Hfin|].
  split; [now apply dispatch_effects_quiet|].
  now rewrite Hself.
Qed.

Lemma monitor_dispatches_every_received_height_witness :
  finite_clock Fixture.env_ok
  /\ prove_calls
       (effects_of (monitor_nuchain_blocks Fixture.env_ok Fixture.shallow
                      [Connected [NewBlock 7] (Failed Py.ConnectionClosed);
                       Connected [NewBlock 7; NewBlock 8] (Failed Py.ConnectionClosed);
                       Connected [NewBlock 9] Closed;
                       Connected [NewBlock 10] Closed] 1) Fixture.world)
     = [(1, 7); (2, 7); (1, 7); (2, 7); (1, 8); (2, 8)].
Proof.
  split; [exact fixture_clock_finite|].
  exact (proj1 (monitor_dispatches_every_received_height Fixture.env_ok Fixture.shallow
                  [Connected [NewBlock 7] (Failed Py.ConnectionClosed);
                   Connected [NewBlock 7; NewBlock 8] (Failed Py.ConnectionClosed);
                   Connected [NewBlock 9] Closed;
                   Connected [NewBlock 10] Closed] 1 Fixture.world
                  fixture_clock_finite)).
Defined.

(** ** Statistics *)

(** X19.  A turn of [monitor_mining_stats] raises only on numbers it
    cannot use: when the uptime is a finite float and the proof counter
    fits a float, the statistics dictionary is built. *)
Theorem stats_turn_raises_only_on_unusable_numbers (me : Miner) (now : Py.float) :
  Py.is_finite (Py.fsub now (start_time me)) = true ->
  Py.is_finite (Py.float_of_int (proofs_generated me)) = true ->
  exists stats, Stats.monitor_mining_stats me now = inr stats.
Proof.
  intros Huptime Hcount.
  unfold Stats.monitor_mining_stats, Stats.proofs_per_second, Py.int_truediv_float.
  destruct (int_of_float_finite _ Huptime) as [seconds Hseconds].
  rewrite Hseconds, Hcount. cbn [negb].
  destruct (Py.flt (Py.float_of_int 0) (Py.fsub now (start_time me))) eqn:Hpos.
  - rewrite (positive_is_not_zero _ Hpos). eauto.
  - eauto.
Qed.

Lemma stats_turn_raises_only_on_unusable_numbers_witness :
  Py.is_finite (Py.fsub (Fixture.clock 10) (start_time Fixture.miner)) = true
  /\ Py.is_finite (Py.float_of_int (proofs_generated Fixture.miner)) = true
  /\ exists stats, Stats.monitor_mining_stats Fixture.miner (Fixture.clock 10) = inr stats.
Proof.
  split; [reflexivity|]. split; [reflexivity|].
  exact (stats_turn_raises_only_on_unusable_numbers Fixture.miner (Fixture.clock 10)
           eq_refl eq_refl).
Defined.

(** ** Serialised text *)

Lemma printable_append (a b : string) :
  printable (a +++ b) = printable a && printable b.
Proof.
  induction a as [|c a IH]; simpl; auto.
  rewrite IH. now rewrite andb_assoc.
Qed.

Lemma printable_escape_char (c : ascii) : printable (Json.escape_char c) = true.
Proof. destruct c as [[] [] [] [] [] [] [] []]; reflexivity. Qed.

Lemma printable_escape (s : string) : printable (Json.escape s) = true.
Proof.
  induction s as [|c s IH]; simpl; auto.
  now rewrite printable_append, printable_escape_char, IH.
Qed.

Lemma printable_quote (s : string) : printable (Json.quote s) = true.
Proof.
  unfold Json.quote. now rewrite !printable_append, printable_escape.
Qed.

Lemma printable_uint (d : Decimal.uint) : printable (NilEmpty.string_of_uint d) = true.
Proof. induction d; simpl; auto. Qed.

Lemma printable_str_int (n : Z) : printable (Py.str_int n) = true.
Proof.
  unfold Py.str_int, NilZero.string_of_int, NilZero.string_of_uint.
  destruct (Z.to_int n) as [d|d]; destruct d; try reflexivity;
    try (apply (printable_uint (_ _))); simpl; apply printable_uint.
Qed.

Lemma printable_join (sep : string) (l : list string) :
  printable sep = true ->
  Forall (fun s => printable s = true) l ->
  printable (Json.join sep l) = true.
Proof.
  intros Hsep. induction 1 as [|s l Hs Hl IH]; [reflexivity|].
  destruct l as [|s' l]; [exact Hs|].
  change (Json.join sep (s :: s' :: l)) with (s +++ sep +++ Json.join sep (s' :: l)).
  now rewrite !printable_append, Hs, Hsep, IH.
Qed.

Lemma insert_item_printable (kv : string * string) (l : list (string * string)) :
  printable_item kv -> Forall printable_item l ->
  Forall printable_item (Json.insert_item kv l).
Proof.
  intros Hkv. induction 1 as [|kv' l Hkv' Hl IH]; simpl.
  - auto.
  - destruct (String.leb (fst kv') (fst kv)); auto.
Qed.

Lemma sort_items_printable (l : list (string * string)) :
  Forall printable_item l -> Forall printable_item (Json.sort_items l).
Proof.
  unfold Json.sort_items.
  assert (H : forall acc, Forall printable_item acc -> Forall printable_item l ->
                          Forall printable_item
                            (fold_left (fun acc kv => Json.insert_item kv acc) l acc)).
  { induction l as [|kv l IH]; intros acc Hacc Hl; simpl; auto.
    inversion Hl; subst. apply IH; auto using insert_item_printable. }
  apply H. constructor.
Qed.

(** X20.  The text that [json.dumps] produces is printable ASCII whatever
    characters the strings hold (owner, hardware id, relayer address):
    so is the text hashed by [prepare_public_inputs] and the payload and
    transaction built for [submit_to_nuchain]. *)
Theorem dumps_is_printable_ascii (sort_keys : bool) (v : Json.value) :
  printable (Json.dumps sort_keys v) = true.
Proof.
  - induction v as [n|s|l IH|d IH] using json_value_ind.
    + apply printable_str_int.
    + apply printable_quote.
    + cbn [Json.dumps]. rewrite !printable_append.
      change (printable "[") with true. change (printable "]") with true.
      rewrite andb_true_r. cbn [andb].
      apply printable_join; [reflexivity|].
      apply Forall_map. exact IH.
    + cbn [Json.dumps]. rewrite !printable_append.
      change (printable "{") with true. change (printable "}") with true.
      rewrite andb_true_r. cbn [andb].
      apply printable_join; [reflexivity|].
      apply Forall_map.
      assert (Hitems : Forall printable_item
                (map (fun kv => match kv with (k, x) => (k, Json.dumps sort_keys x) end) d)).
      { apply Forall_map. eapply Forall_impl; [|exact IH].
        intros [k x] H. exact H. }
      assert (Hsorted : Forall printable_item
                (if sort_keys
                 then Json.sort_items
                        (map (fun kv => match kv with (k, x) => (k, Json.dumps sort_keys x) end) d)
                 else map (fun kv => match kv with (k, x) => (k, Json.dumps sort_keys x) end) d)).
      { destruct sort_keys; auto using sort_items_printable. }
      eapply Forall_impl; [|exact Hsorted].
      intros [k x] H. unfold printable_item in H. simpl in H.
      cbn [fst snd]. now rewrite !printable_append, printable_quote, H.
Qed.
